(** * Verification of the resume text-extraction core of [src/main.py]

    Characters are modelled as ASCII ([ascii]); Python [str] values are
    modelled as [string].  The few non-ASCII members of character classes
    in the source ('–', '—' in the date-range dash class and '•' in the
    project bullet class) cannot occur in a modelled input and are left out
    of the corresponding classes. *)

From Stdlib Require Import Bool Arith Lia List Ascii String.
Import ListNotations.
Open Scope string_scope.
Open Scope list_scope.
Open Scope nat_scope.

(** ** Python string primitives on ASCII text *)
Module Py.

  (** [str.isspace] / regex [\s] on ASCII: \t \n \v \f \r, \x1c-\x1f and space. *)
Definition is_space (c : ascii) : bool :=
    let n := nat_of_ascii c in
    ((9 <=? n) && (n <=? 13)) || ((28 <=? n) && (n <=? 32)).

Definition is_digit (c : ascii) : bool :=
    let n := nat_of_ascii c in (48 <=? n) && (n <=? 57).

Definition is_upper (c : ascii) : bool :=
    let n := nat_of_ascii c in (65 <=? n) && (n <=? 90).

Definition is_lower (c : ascii) : bool :=
    let n := nat_of_ascii c in (97 <=? n) && (n <=? 122).

Definition is_alpha (c : ascii) : bool := is_upper c || is_lower c.

  (** regex [\w]: letters, digits and underscore. *)
Definition is_word (c : ascii) : bool :=
    is_alpha c || is_digit c || Ascii.eqb c "_"%char.

Definition lower_char (c : ascii) : ascii :=
    if is_upper c then ascii_of_nat (nat_of_ascii c + 32) else c.

Definition upper_char (c : ascii) : ascii :=
    if is_lower c then ascii_of_nat (nat_of_ascii c - 32) else c.

  (** [str.lower] *)
Fixpoint lower (s : string) : string :=
    match s with
    | EmptyString => EmptyString
    | String c s' => String (lower_char c) (lower s')
    end.

  (** [str.lstrip(chars)] with the set of stripped characters as a predicate. *)
Fixpoint lstrip_by (p : ascii -> bool) (s : string) : string :=
    match s with
    | EmptyString => EmptyString
    | String c s' => if p c then lstrip_by p s' else s
    end.

Fixpoint rev_string (s : string) : string :=
    match s with
    | EmptyString => EmptyString
    | String c s' => rev_string s' ++ String c EmptyString
    end.

Definition strip_by (p : ascii -> bool) (s : string) : string :=
    rev_string (lstrip_by p (rev_string (lstrip_by p s))).

  (** [str.strip()] *)
Definition strip (s : string) : string := strip_by is_space s.

  (** [str.strip(chars)] *)
Definition strip_chars (chars : string) (s : string) : string :=
    strip_by (fun c => existsb (Ascii.eqb c) (list_ascii_of_string chars)) s.

  (** [needle in hay] *)
Fixpoint contains (needle hay : string) : bool :=
    String.prefix needle hay ||
    match hay with
    | EmptyString => false
    | String _ hay' => contains needle hay'
    end.

  (** [any(x in s for x in xs)] *)
Definition any_in (xs : list string) (s : string) : bool :=
    existsb (fun x => contains x s) xs.

  (** [s.split(sep)] for a one-character separator. *)
Fixpoint split_char (sep : ascii) (s : string) : list string :=
    match s with
    | EmptyString => [EmptyString]
    | String c s' =>
        if Ascii.eqb c sep then EmptyString :: split_char sep s'
        else match split_char sep s' with
             | [] => [String c EmptyString]
             | w :: ws => String c w :: ws
             end
    end.

Definition nl : string := String (ascii_of_nat 10) EmptyString.
Definition nl_char : ascii := ascii_of_nat 10.

  (** [text.split('\n')] *)
Definition split_lines (s : string) : list string := split_char nl_char s.

  (** [sep.join(xs)] *)
Fixpoint join (sep : string) (xs : list string) : string :=
    match xs with
    | [] => EmptyString
    | [x] => x
    | x :: xs' => x ++ sep ++ join sep xs'
    end.

  (** Python truthiness of an [Optional[str]]: [None] and [""] are false. *)
Definition truthy (o : option string) : bool :=
    match o with
    | Some s => negb (String.eqb s EmptyString)
    | None => false
    end.

  (** [x or default] for an [Optional[str]] [x]. *)
Definition or_else (o : option string) (d : string) : string :=
    match o with
    | Some s => if String.eqb s EmptyString then d else s
    | None => d
    end.

End Py.

(** ** Python's [re] module: a backtracking matcher

    Patterns are syntax trees; alternation is ordered, quantifiers are
    greedy or lazy, and the matcher explores alternatives in the order of
    Python's engine, in continuation-passing style. *)
Module Re.

Inductive re : Type :=
  | Eps
  | Chr (p : ascii -> bool)          (* one character of a class *)
  | Seq (r1 r2 : re)
  | Alt (r1 r2 : re)                 (* r1|r2, r1 first *)
  | Star (greedy : bool) (r : re)    (* r* or r*? *)
  | Group (n : nat) (r : re)         (* capturing group n *)
  | Ahead (r : re)                   (* (?=r) *)
  | WordB                            (* \b *)
  | Bol                              (* ^ without MULTILINE *)
  | Eol.                             (* $ without MULTILINE *)

  (** Matcher state: previous character, remaining input, position,
      and the captured groups (most recent first). *)
Record mst : Type := MSt {
    prev : option ascii;
    rest : list ascii;
    pos : nat;
    caps : list (nat * (nat * nat))
  }.

Definition word_opt (o : option ascii) : bool :=
    match o with Some c => Py.is_word c | None => false end.

Definition at_boundary (s : mst) : bool :=
    xorb (word_opt (prev s)) (word_opt (hd_error (rest s))).

  (** Character test, with [re.IGNORECASE] when [ic] is set. *)
Definition chr_ok (ic : bool) (p : ascii -> bool) (c : ascii) : bool :=
    p c || (ic && (p (Py.lower_char c) || p (Py.upper_char c))).

Fixpoint m (ic : bool) (r : re) (s : mst) (k : mst -> option mst)
    {struct r} : option mst :=
    match r with
    | Eps => k s
    | Chr p =>
        match rest s with
        | c :: cs =>
            if chr_ok ic p c then k (MSt (Some c) cs (S (pos s)) (caps s))
            else None
        | [] => None
        end
    | Seq r1 r2 => m ic r1 s (fun s' => m ic r2 s' k)
    | Alt r1 r2 =>
        match m ic r1 s k with
        | Some x => Some x
        | None => m ic r2 s k
        end
    | Star g r1 =>
        (* each iteration must consume input, so the loop runs at most
           [length (rest s)] times *)
        let fix loop (n : nat) (s0 : mst) {struct n} : option mst :=
          match n with
          | 0 => k s0
          | S n' =>
              if g then
                match m ic r1 s0
                        (fun s' => if pos s' =? pos s0 then None else loop n' s') with
                | Some x => Some x
                | None => k s0
                end
              else
                match k s0 with
                | Some x => Some x
                | None =>
                    m ic r1 s0
                      (fun s' => if pos s' =? pos s0 then None else loop n' s')
                end
          end
        in loop (S (List.length (rest s))) s
    | Group n r1 =>
        m ic r1 s (fun s' =>
          k (MSt (prev s') (rest s') (pos s') ((n, (pos s, pos s')) :: caps s')))
    | Ahead r1 =>
        match m ic r1 s (fun s' => Some s') with
        | Some _ => k s
        | None => None
        end
    | WordB => if at_boundary s then k s else None
    | Bol => if pos s =? 0 then k s else None
    | Eol =>
        match rest s with
        | [] => k s
        | [c] => if Ascii.eqb c Py.nl_char then k s else None
        | _ => None
        end
    end.

  (** Derived syntax. *)
Definition fail : re := Chr (fun _ => false).
Definition chr (c : ascii) : re := Chr (Ascii.eqb c).
Fixpoint lit_list (l : list ascii) : re :=
    match l with
    | [] => Eps
    | [c] => chr c
    | c :: l' => Seq (chr c) (lit_list l')
    end.
Definition lit (s : string) : re := lit_list (list_ascii_of_string s).
Fixpoint alts (rs : list re) : re :=
    match rs with
    | [] => fail
    | [r] => r
    | r :: rs' => Alt r (alts rs')
    end.
Fixpoint seqs (rs : list re) : re :=
    match rs with
    | [] => Eps
    | [r] => r
    | r :: rs' => Seq r (seqs rs')
    end.
Definition star (r : re) : re := Star true r.
Definition lazy_star (r : re) : re := Star false r.
Definition plus (r : re) : re := Seq r (Star true r).
Definition opt (r : re) : re := Alt r Eps.
Fixpoint rep (n : nat) (r : re) : re :=
    match n with
    | 0 => Eps
    | S n' => Seq r (rep n' r)
    end.
  (** up to [n] further greedy repetitions: [(r(r(...)?)?)?] *)
Fixpoint upto (n : nat) (r : re) : re :=
    match n with
    | 0 => Eps
    | S n' => opt (Seq r (upto n' r))
    end.
  (** [r{lo,hi}] *)
Definition rep_range (lo hi : nat) (r : re) : re := Seq (rep lo r) (upto (hi - lo) r).

Definition digit : re := Chr Py.is_digit.            (* \d *)
Definition word : re := Chr Py.is_word.              (* \w *)
Definition space : re := Chr Py.is_space.            (* \s *)
Definition dot : re := Chr (fun c => negb (Ascii.eqb c Py.nl_char)).  (* . *)
Definition newline : re := chr Py.nl_char.           (* \n *)
Definition range (lo hi : ascii) (c : ascii) : bool :=
    (nat_of_ascii lo <=? nat_of_ascii c) && (nat_of_ascii c <=? nat_of_ascii hi).
Definition one_of (s : string) (c : ascii) : bool :=
    existsb (Ascii.eqb c) (list_ascii_of_string s).

  (** Number of capturing groups of a pattern. *)
Fixpoint ngroups (r : re) : nat :=
    match r with
    | Group n r1 => Nat.max n (ngroups r1)
    | Seq r1 r2 | Alt r1 r2 => Nat.max (ngroups r1) (ngroups r2)
    | Star _ r1 | Ahead r1 => ngroups r1
    | _ => 0
    end.

  (** ** Matching against a whole subject string *)

Definition state_at (l : list ascii) (i : nat) : mst :=
    MSt (match i with 0 => None | S j => nth_error l j end) (skipn i l) i [].

  (** A match: its start and the final matcher state. *)
Definition mtch : Type := (nat * mst)%type.

Definition match_at (ic : bool) (r : re) (l : list ascii) (i : nat) : option mst :=
    m ic r (state_at l i) (fun s => Some s).

  (** try start positions [i], [i+1], ... ([n] of them) *)
Fixpoint scan (ic : bool) (r : re) (l : list ascii) (i n : nat) : option mtch :=
    match n with
    | 0 => None
    | S n' =>
        match match_at ic r l i with
        | Some s => Some (i, s)
        | None => scan ic r l (S i) n'
        end
    end.

Definition search_from (ic : bool) (r : re) (l : list ascii) (i : nat) : option mtch :=
    scan ic r l i (S (List.length l - i)).

Definition slice (l : list ascii) (a b : nat) : string :=
    string_of_list_ascii (firstn (b - a) (skipn a l)).

  (** [match.group(0)] *)
Definition group0 (l : list ascii) (x : mtch) : string :=
    slice l (fst x) (pos (snd x)).

  (** [match.group(n)]: [None] when the group did not take part. *)
Definition group (l : list ascii) (x : mtch) (n : nat) : option string :=
    match find (fun p => fst p =? n) (caps (snd x)) with
    | Some (_, (a, b)) => Some (slice l a b)
    | None => None
    end.

  (** [re.search(pattern, text, flags)] *)
Definition search (ic : bool) (r : re) (t : string) : option mtch :=
    search_from ic r (list_ascii_of_string t) 0.

  (** [re.finditer]: successive non-overlapping matches.  After an empty
      match the next search starts one character later (none of the
      patterns of the program matches the empty string). *)
Fixpoint finditer_from (ic : bool) (r : re) (l : list ascii) (i fuel : nat) : list mtch :=
    match fuel with
    | 0 => []
    | S f =>
        if List.length l <? i then []
        else match search_from ic r l i with
             | None => []
             | Some x =>
                 x :: finditer_from ic r l
                        (if pos (snd x) =? fst x then S (pos (snd x)) else pos (snd x)) f
             end
    end.

Definition finditer (ic : bool) (r : re) (t : string) : list mtch :=
    let l := list_ascii_of_string t in finditer_from ic r l 0 (S (List.length l)).

  (** [re.split(pattern, text, flags)]: the pieces between matches, each
      match followed by the values of all its groups ([None] for a group
      that did not take part). *)
Fixpoint split_pieces (l : list ascii) (ng : nat) (last : nat) (xs : list mtch)
    : list (option string) :=
    match xs with
    | [] => [Some (slice l last (List.length l))]
    | x :: xs' =>
        Some (slice l last (fst x))
        :: map (group l x) (seq 1 ng)
        ++ split_pieces l ng (pos (snd x)) xs'
    end.

Definition split (ic : bool) (r : re) (t : string) : list (option string) :=
    split_pieces (list_ascii_of_string t) (ngroups r) 0 (finditer ic r t).

  (** [re.findall] for a pattern with exactly one group: the group values. *)
Definition findall1 (ic : bool) (r : re) (t : string) : list string :=
    let l := list_ascii_of_string t in
    map (fun x => match group l x 1 with Some g => g | None => EmptyString end)
        (finditer ic r t).

End Re.

(** ** The extraction core of [src/main.py] *)
Module Resume.
Import Re.

  (** Python results: a value or a raised exception.  The only exception
      the core can raise is the [AttributeError] of [None.strip()]. *)
Inductive exc : Type := AttributeError.

Inductive result (A : Type) : Type :=
  | Ok (a : A)
  | Raise (e : exc).
Arguments Ok {A} a.
Arguments Raise {A} e.

Definition bind {A B : Type} (x : result A) (f : A -> result B) : result B :=
    match x with
    | Ok a => f a
    | Raise e => Raise e
    end.

Notation "'let*' x := c1 'in' c2" := (bind c1 (fun x => c2))
    (at level 61, x pattern, c1 at next level, right associativity).

  (** first element of [xs] for which [f] gives a value ([for ...: if ...: break]) *)
Fixpoint first_some {A B : Type} (f : A -> option B) (xs : list A) : option B :=
    match xs with
    | [] => None
    | x :: xs' => match f x with Some y => Some y | None => first_some f xs' end
    end.

  (** [m.group(0) if m else None] for [m = re.search(...)] *)
Definition search_group0 (ic : bool) (r : re) (t : string) : option string :=
    option_map (group0 (list_ascii_of_string t)) (search ic r t).

  (** [m.group(1)] of a successful search, for patterns whose group 1 always takes part *)
Definition search_group1 (ic : bool) (r : re) (t : string) : option string :=
    option_map (fun x => match group (list_ascii_of_string t) x 1 with
                         | Some g => g | None => EmptyString end)
               (search ic r t).

Definition alnum (c : ascii) : bool :=
    range "a" "z" c || range "A" "Z" c || range "0" "9" c.
Definition alpha (c : ascii) : bool := range "a" "z" c || range "A" "Z" c.

  (** *** extract_name *)
Definition name_blacklist : list string :=
    ["@"; "http"; "resume"; "cv"; "email"; "phone"].

Fixpoint first_name_line (lines : list string) : option string :=
    match lines with
    | [] => None
    | line :: lines' =>
        if (5 <? String.length line) && (String.length line <? 40)
           && negb (Py.any_in name_blacklist (Py.lower line))
        then Some (Py.strip line)
        else first_name_line lines'
    end.

Definition extract_name (text : string) : option string :=
    first_name_line (firstn 5 (Py.split_lines text)).

  (** *** extract_email: [[a-zA-Z0-9._%+-]+@[a-zA-Z0-9.-]+\.[a-zA-Z]{2,}] *)
Definition email_pattern : re :=
    seqs [plus (Chr (fun c => alnum c || one_of "._%+-" c)); chr "@";
          plus (Chr (fun c => alnum c || one_of ".-" c)); chr ".";
          rep 2 (Chr alpha); star (Chr alpha)].

Definition extract_email (text : string) : option string :=
    search_group0 false email_pattern text.

  (** *** extract_phone:
      [(\+\d{1,3}[-.\s]?)?(\(?\d{3}\)?[-.\s]?\d{3}[-.\s]?\d{4})] *)
Definition phone_sep : re := Chr (fun c => one_of "-." c || Py.is_space c).
Definition phone_pattern : re :=
    Seq (opt (Group 1 (seqs [chr "+"; rep_range 1 3 digit; opt phone_sep])))
        (Group 2 (seqs [opt (chr "("); rep 3 digit; opt (chr ")"); opt phone_sep;
                        rep 3 digit; opt phone_sep; rep 4 digit])).

Definition extract_phone (text : string) : option string :=
    search_group0 false phone_pattern text.

  (** *** extract_skills *)
Definition skill_keywords : list string :=
    ["python"; "javascript"; "react"; "angular"; "vue"; "node.js"; "express";
     "mongodb"; "sql"; "mysql"; "postgresql"; "nosql"; "firebase"; "aws"; "azure";
     "gcp"; "docker"; "kubernetes"; "ci/cd"; "jenkins"; "git"; "github"; "gitlab";
     "html"; "css"; "sass"; "less"; "bootstrap"; "tailwind"; "typescript";
     "java"; "c++"; "c#"; ".net"; "php"; "ruby"; "go"; "rust"; "swift";
     "android"; "ios"; "flutter"; "react native"; "electron";
     "machine learning"; "deep learning"; "ai"; "data science"; "data analysis";
     "tensorflow"; "pytorch"; "keras"; "scikit-learn"; "pandas"; "numpy";
     "agile"; "scrum"; "kanban"; "jira"; "confluence";
     "communication"; "leadership"; "project management"; "team work";
     "problem solving"; "critical thinking"; "time management"].

  (** [r'\b' + re.escape(skill) + r'\b'] *)
Definition skill_pattern (skill : string) : re := seqs [WordB; lit skill; WordB].

Definition is_some {A : Type} (o : option A) : bool :=
    match o with Some _ => true | None => false end.

Definition extract_skills (text : string) : list string :=
    filter (fun skill => is_some (search false (skill_pattern skill) (Py.lower text)))
           skill_keywords.

  (** *** Section detection, shared by the three section extractors

      [find_section_from hdr term in_sec i lines] is the loop
      [for i, line in enumerate(lines)] of [extract_education],
      [extract_experience] and [extract_projects], with [hdr] the
      section's indicator list and [term] its list of closing keywords.  It
      returns the appended lines with their positions. *)
Fixpoint find_section_from (hdr term : list string) (in_sec : bool) (i : nat)
    (lines : list string) : list (nat * string) :=
    match lines with
    | [] => []
    | line :: lines' =>
        let line_lower := Py.strip (Py.lower line) in
        if Py.any_in hdr line_lower && (String.length line_lower <? 30) then
          (i, line) :: find_section_from hdr term true (S i) lines'
        else if in_sec && negb (String.eqb line_lower EmptyString)
                && (String.length line_lower <? 30) && Py.any_in term line_lower then
          []                                            (* break *)
        else if in_sec && negb (String.eqb (Py.strip line) EmptyString) then
          (i, line) :: find_section_from hdr term in_sec (S i) lines'
        else find_section_from hdr term in_sec (S i) lines'
    end.

Definition find_section (hdr term : list string) (text : string) : list (nat * string) :=
    find_section_from hdr term false 0 (Py.split_lines text).

  (** the accumulated [..._section_text]: each line followed by ["\n"] *)
Definition section_text (xs : list (nat * string)) : string :=
    fold_right (fun x acc => (snd x ++ Py.nl ++ acc)%string) EmptyString xs.

Inductive kind : Type := Education | Experience | Projects.

Definition education_indicators : list string :=
    ["education"; "academic"; "degree"; "university"; "college"; "school"; "institute"].
Definition experience_indicators : list string :=
    ["experience"; "employment"; "work history"; "professional experience"; "career"].
Definition project_indicators : list string :=
    ["projects"; "personal projects"; "academic projects"].

Definition indicators (k : kind) : list string :=
    match k with
    | Education => education_indicators
    | Experience => experience_indicators
    | Projects => project_indicators
    end.

  (** the closing keywords tested in each extractor *)
Definition terminators (k : kind) : list string :=
    match k with
    | Education => ["experience"; "work"; "employment"; "professional"; "projects"; "skills"]
    | Experience => ["education"; "projects"; "skills"; "certifications"]
    | Projects => ["experience"; "education"; "skills"; "certifications"]
    end.

Definition section_lines (k : kind) (text : string) : list (nat * string) :=
    find_section (indicators k) (terminators k) text.

Definition section_of (k : kind) (text : string) : string :=
    section_text (section_lines k text).

  (** *** extract_education *)
Record EducationRecord : Type := MkEdu {
    degree : string;
    institution : string;
    year : string
  }.

Definition degree_indicators : list string :=
    ["bachelor"; "master"; "phd"; "b.tech"; "m.tech"; "b.e"; "m.e"; "mba";
     "b.sc"; "m.sc"; "b.com"; "m.com"; "b.a"; "m.a"].

  (** a degree indicator spliced into a pattern: its ['.'] is the regex dot *)
Definition indicator_pattern (s : string) : re :=
    seqs (map (fun c => if Ascii.eqb c "." then dot else chr c) (list_ascii_of_string s)).

  (** [r'\n(?=\d{4}|\b(?:' + '|'.join(degree_indicators) + r')\b)'] *)
Definition education_split_pattern : re :=
    Seq newline (Ahead (Alt (rep 4 digit)
                            (seqs [WordB; alts (map indicator_pattern degree_indicators); WordB]))).

  (** [r'\b' + indicator + r'[s]?\b.*?(?:\n|$)'] *)
Definition degree_pattern (indicator : string) : re :=
    seqs [WordB; indicator_pattern indicator; opt (chr "s"); WordB;
          lazy_star dot; Alt newline Eol].

Definition institution_words : list re :=
    [lit "university"; lit "college"; lit "institute"; lit "school"].
Definition word_or_space : re := Chr (fun c => Py.is_word c || Py.is_space c).

Definition institution_patterns : list re :=
    [ (* r'\b(?:university|college|institute|school) of [\w\s]+' *)
      seqs [WordB; alts institution_words; lit " of "; plus word_or_space];
      (* r'[\w\s]+ (?:university|college|institute|school)\b' *)
      seqs [plus word_or_space; chr " "; alts institution_words; WordB] ].

Definition year_token (century : string) : re :=
    seqs [WordB; lit century; rep 2 digit; WordB].

  (** [r'(\b20\d{2}\b|\b19\d{2}\b)(?:\s*-\s*(?:\b20\d{2}\b|\b19\d{2}\b|present|current|now))?'] *)
Definition year_pattern : re :=
    Seq (Group 1 (Alt (year_token "20") (year_token "19")))
        (opt (seqs [star space; chr "-"; star space;
                    alts [year_token "20"; year_token "19";
                          lit "present"; lit "current"; lit "now"]])).

Definition education_entry (entry : string) : option EducationRecord :=
    let degree := first_some (fun ind => option_map Py.strip
                                (search_group0 true (degree_pattern ind) entry))
                             degree_indicators in
    let institution := first_some (fun p => option_map Py.strip
                                     (search_group0 true p entry))
                                  institution_patterns in
    let year := search_group0 true year_pattern entry in
    if Py.truthy degree || Py.truthy institution then
      Some (MkEdu (Py.or_else degree "Degree not specified")
                  (Py.or_else institution "Institution not specified")
                  (Py.or_else year "Year not specified"))
    else None.

Fixpoint education_entries (entries : list (option string))
    : result (list EducationRecord) :=
    match entries with
    | [] => Ok []
    | None :: _ => Raise AttributeError
    | Some entry :: entries' =>
        if String.length (Py.strip entry) <? 10 then education_entries entries'
        else
          let* recs := education_entries entries' in
          match education_entry entry with
          | Some r => Ok (r :: recs)
          | None => Ok recs
          end
    end.

Definition extract_education (text : string) : result (list EducationRecord) :=
    let education_section_text := section_of Education text in
    if String.eqb education_section_text EmptyString then Ok []
    else education_entries (split false education_split_pattern education_section_text).

  (** *** extract_experience *)
Record ExperienceRecord : Type := MkExp {
    title : string;
    company : string;
    duration : string
  }.

Definition months : list re :=
    map lit ["jan"; "feb"; "mar"; "apr"; "may"; "jun"; "jul"; "aug"; "sep"; "oct"; "nov"; "dec"].
Definition lower_letters : re := star (Chr (range "a" "z")).
  (** [[-–—]] *)
Definition dash : re := chr "-".
Definition ongoing : re := alts [lit "present"; lit "current"; lit "now"].

  (** [date_pattern], with its three capturing groups *)
Definition date_pattern : re :=
    alts [ seqs [WordB; Group 1 (alts months); lower_letters; chr " "; rep 4 digit;
                 star space; dash; star space;
                 Group 2 (alts months); lower_letters; chr " "; rep 4 digit];
           seqs [WordB; rep 4 digit; star space; dash; star space; rep 4 digit];
           seqs [WordB; rep 4 digit; star space; dash; star space; Group 3 ongoing; WordB] ].

  (** [duration_pattern]: the same alternatives with non-capturing groups *)
Definition duration_pattern : re :=
    alts [ seqs [WordB; alts months; lower_letters; chr " "; rep 4 digit;
                 star space; dash; star space;
                 alts months; lower_letters; chr " "; rep 4 digit];
           seqs [WordB; rep 4 digit; star space; dash; star space; rep 4 digit];
           seqs [WordB; rep 4 digit; star space; dash; star space; ongoing; WordB] ].

  (** [r'\n(?=.*\b(?:19|20)\d{2}\b)'] *)
Definition year_line_split_pattern : re :=
    Seq newline (Ahead (seqs [star dot; WordB; Alt (lit "19") (lit "20"); rep 2 digit; WordB])).

Definition role_nouns : list re :=
    map lit ["Developer"; "Engineer"; "Manager"; "Designer"; "Analyst"; "Consultant";
             "Director"; "Lead"; "Architect"; "Specialist"; "Intern"].

  (** [r'^([A-Z][A-Za-z\s]{2,30}(?:Developer|...|Intern))'] *)
Definition title_pattern : re :=
    Seq Bol (Group 1 (seqs [Chr (range "A" "Z");
                            rep_range 2 30 (Chr (fun c => alpha c || Py.is_space c));
                            alts role_nouns])).

Definition company_patterns : list re :=
    [ (* r'(?:at|with|for) ([\w\s]+)' *)
      seqs [alts [lit "at"; lit "with"; lit "for"]; chr " "; Group 1 (plus word_or_space)];
      (* r'^([\w\s]+) (?:Inc\.|LLC|Ltd\.)' *)
      seqs [Bol; Group 1 (plus word_or_space); chr " ";
            alts [lit "Inc."; lit "LLC"; lit "Ltd."]];
      (* r'^([\w\s,]+)(?:\n|$)' *)
      seqs [Bol; Group 1 (plus (Chr (fun c => Py.is_word c || Py.is_space c
                                              || Ascii.eqb c ","))); Alt newline Eol] ].

Definition experience_entry (entry : string) : option ExperienceRecord :=
    let title := match findall1 false title_pattern entry with
                 | t :: _ => Some (Py.strip t)
                 | [] => None
                 end in
    let company := first_some (fun p => option_map Py.strip (search_group1 false p entry))
                              company_patterns in
    let duration := search_group0 true duration_pattern entry in
    if Py.truthy title || Py.truthy company then
      Some (MkExp (Py.or_else title "Position not specified")
                  (Py.or_else company "Company not specified")
                  (Py.or_else duration "Duration not specified"))
    else None.

Definition experience_headers : list string :=
    ["experience"; "work experience"; "employment history"].

Fixpoint experience_entries (entries : list (option string))
    : result (list ExperienceRecord) :=
    match entries with
    | [] => Ok []
    | None :: _ => Raise AttributeError
    | Some entry :: entries' =>
        if (String.length (Py.strip entry) <? 15)
           || existsb (String.eqb (Py.lower (Py.strip entry))) experience_headers
        then experience_entries entries'
        else
          let* recs := experience_entries entries' in
          match experience_entry entry with
          | Some r => Ok (r :: recs)
          | None => Ok recs
          end
    end.

Definition experience_split (experience_section_text : string) : list (option string) :=
    let entries := split true date_pattern experience_section_text in
    if List.length entries <=? 1
    then split false year_line_split_pattern experience_section_text
    else entries.

Definition extract_experience (text : string) : result (list ExperienceRecord) :=
    let experience_section_text := section_of Experience text in
    if String.eqb experience_section_text EmptyString then Ok []
    else experience_entries (experience_split experience_section_text).

  (** *** extract_projects *)
Record ProjectRecord : Type := MkProj {
    proj_name : string;
    description : string
  }.

  (** [r'\n(?=•|\*|\-|\d+\.|\d+\)|\w+:)'] *)
Definition project_split_pattern : re :=
    Seq newline (Ahead (alts [chr "*"; chr "-"; Seq (plus digit) (chr ".");
                              Seq (plus digit) (chr ")"); Seq (plus word) (chr ":")])).

  (** [lines[0].strip('•*-\t .)')] *)
Definition name_strip_chars : string :=
    String "*" (String "-" (String (ascii_of_nat 9) " .)")).

Definition project_entry (entry : string) : option ProjectRecord :=
    let lines := Py.split_lines entry in
    let name := Py.strip_chars name_strip_chars (hd EmptyString lines) in
    let description := if 1 <? List.length lines
                       then Py.strip (Py.join Py.nl (tl lines)) else EmptyString in
    if String.eqb name EmptyString then None
    else Some (MkProj name description).

Fixpoint project_entries (entries : list (option string)) : result (list ProjectRecord) :=
    match entries with
    | [] => Ok []
    | None :: _ => Raise AttributeError
    | Some entry0 :: entries' =>
        let entry := Py.strip entry0 in
        if (String.length entry <? 15) || existsb (String.eqb (Py.lower entry)) project_indicators
        then project_entries entries'
        else
          let* recs := project_entries entries' in
          match project_entry entry with
          | Some r => Ok (r :: recs)
          | None => Ok recs
          end
    end.

Definition extract_projects (text : string) : result (list ProjectRecord) :=
    let project_section_text := section_of Projects text in
    if String.eqb project_section_text EmptyString then Ok []
    else project_entries (split false project_split_pattern project_section_text).

  (** *** The pipeline of [parse_resume], after text extraction *)
Record ParsedResume : Type := MkParsed {
    r_name : option string;
    r_email : option string;
    r_phone : option string;
    r_skills : list string;
    r_education : list EducationRecord;
    r_experience : list ExperienceRecord;
    r_projects : list ProjectRecord
  }.

Definition extract (text : string) : result ParsedResume :=
    let name := extract_name text in
    let email := extract_email text in
    let phone := extract_phone text in
    let skills := extract_skills text in
    let* education := extract_education text in
    let* experience := extract_experience text in
    let* projects := extract_projects text in
    Ok (MkParsed name email phone skills education experience projects).

End Resume.

(** ** Concrete documents *)
Module Docs.
Import Resume.
Definition NL : string := Py.nl.

Definition jane_smith_text : string :=
    ("Jane Smith" ++ NL ++ "jane.smith@mail.com" ++ NL ++ "555-222-3344" ++ NL ++ NL
     ++ "Education" ++ NL ++ "BS Computer Science" ++ NL ++ "State University" ++ NL
     ++ "2019" ++ NL ++ NL ++ "Experience" ++ NL ++ "Software Engineer at Acme Corp"
     ++ NL ++ "2020 - Present" ++ NL)%string.

  (** an experience section holding a year-to-present range *)
Definition date_range_text : string :=
    ("Experience" ++ NL ++ "2020 - Present" ++ NL)%string.

Definition university_in_experience_text : string :=
    ("Experience" ++ NL ++ "Stanford University")%string.

Definition university_then_experience_text : string :=
    ("University of Example" ++ NL ++ "Experience")%string.

  (** education and experience sections without date ranges *)
Definition two_sections_text : string :=
    ("Education" ++ NL ++ "BS Computer Science" ++ NL ++ "State University" ++ NL
     ++ "Experience" ++ NL ++ "Software Engineer at Acme Corp")%string.
End Docs.

(** ** Name extraction as the spec words it (trimmed length) *)
Module NameSpec.
Import Resume.

Definition spec_name_ok (line : string) : bool :=
    (5 <? String.length (Py.strip line)) && (String.length (Py.strip line) <? 40)
    && negb (Py.any_in name_blacklist (Py.lower line)).

Definition name_by_trimmed_length (text : string) : option string :=
    option_map Py.strip (find spec_name_ok (firstn 5 (Py.split_lines text))).

  (** the test [extract_name] applies: the length of the untrimmed line *)
Definition name_ok_untrimmed (line : string) : bool :=
    (5 <? String.length line) && (String.length line <? 40)
    && negb (Py.any_in name_blacklist (Py.lower line)).
End NameSpec.

(** ** Auxiliary notions used in the statements *)
Module Aux.
Import Resume.

  (** [in_section] after the section loop has consumed [lines], or [None]
      once it has left the loop by [break]. *)
Fixpoint state_after (hdr term : list string) (in_sec : bool) (lines : list string)
    : option bool :=
    match lines with
    | [] => Some in_sec
    | line :: lines' =>
        let line_lower := Py.strip (Py.lower line) in
        if Py.any_in hdr line_lower && (String.length line_lower <? 30) then
          state_after hdr term true lines'
        else if in_sec && negb (String.eqb line_lower EmptyString)
                && (String.length line_lower <? 30) && Py.any_in term line_lower then
          None
        else state_after hdr term in_sec lines'
    end.

  (** a header candidate of kind [k] (spec 4.1) *)
Definition is_header (k : kind) (line : string) : bool :=
    let line_lower := Py.strip (Py.lower line) in
    Py.any_in (indicators k) line_lower && (String.length line_lower <? 30).

Definition blank (line : string) : bool := String.eqb (Py.strip line) EmptyString.

Definition positions (k : kind) (text : string) : list nat :=
    map fst (section_lines k text).

Definition education_filled (r : EducationRecord) : Prop :=
    degree r <> EmptyString /\ institution r <> EmptyString /\ year r <> EmptyString.

Definition experience_filled (r : ExperienceRecord) : Prop :=
    title r <> EmptyString /\ company r <> EmptyString /\ duration r <> EmptyString.

  (** regex-free reading of [\b]: the word-ness of the characters on either
      side of position [j] differs (outside the text counts as non-word) *)
Definition word_before (t : list ascii) (j : nat) : bool :=
    match j with 0 => false | S j' => Re.word_opt (nth_error t j') end.
Definition word_at (t : list ascii) (j : nat) : bool := Re.word_opt (nth_error t j).
Definition boundary (t : list ascii) (j : nat) : bool := xorb (word_before t j) (word_at t j).

Fixpoint list_prefix (w t : list ascii) : bool :=
    match w, t with
    | [], _ => true
    | c :: w', d :: t' => Ascii.eqb c d && list_prefix w' t'
    | _ :: _, [] => false
    end.

Definition word_bounded_at (w t : list ascii) (i : nat) : bool :=
    boundary t i && list_prefix w (skipn i t) && boundary t (i + List.length w).

  (** [skill] occurs in [text] with a word boundary on both sides *)
Definition word_bounded_occurs (skill text : string) : bool :=
    let w := list_ascii_of_string skill in
    let t := list_ascii_of_string text in
    existsb (word_bounded_at w t) (seq 0 (S (List.length t))).

  (** the concatenation of the pieces of a split, [None] read as empty *)
Definition concat_pieces (xs : list (option string)) : string :=
    fold_right (fun o acc => match o with Some s => (s ++ acc)%string | None => acc end)
               EmptyString xs.
End Aux.

(** ** The text extractors of [src/main.py]

    The libraries' results are inputs: for [extract_text_from_pdf] the
    outcome of [pdfplumber.open] and of each [page.extract_text()], for
    [extract_text_from_docx] the [paragraph.text] of each paragraph; an
    exception of the library is caught by the function, which returns [""]. *)
Module Extractors.
(** the outcome of [page.extract_text()]: a text, [None], or an exception *)
Inductive page : Type :=
| PageText (extracted : option string)
| PageRaises.

(** the loop over [pdf.pages]; [None] when a page raised *)
Fixpoint pages_text (text : string) (pages : list page) : option string :=
  match pages with
  | [] => Some text
  | PageRaises :: _ => None
  | PageText extracted :: pages' =>
      let text' := match extracted with
                   | Some e => if String.eqb e EmptyString then text else (text ++ e ++ Py.nl)%string
                   | None => text
                   end in
      pages_text text' pages'
  end.

(** [extract_text_from_pdf]: [pdf] is [None] when [pdfplumber.open] raised *)
Definition extract_text_from_pdf (pdf : option (list page)) : string :=
  match pdf with
  | None => EmptyString
  | Some pages => match pages_text EmptyString pages with
                  | Some text => text
                  | None => EmptyString
                  end
  end.

(** [extract_text_from_docx]: [doc] is the list of [paragraph.text], or [None]
    when [docx.Document] raised *)
Definition extract_text_from_docx (doc : option (list string)) : string :=
  match doc with
  | None => EmptyString
  | Some paragraphs =>
      Py.join Py.nl (filter (fun p => negb (String.eqb p EmptyString)) paragraphs)
  end.
End Extractors.

(** ** The HTTP handlers of [src/main.py]

    Downloading ([requests.get]) and the PDF/DOCX text extraction
    ([pdfplumber], [python-docx]) are library calls: a download is given as
    its outcome, and the two text extractors, which catch every exception
    themselves and return [""] then, are parameters of the handlers. *)
Module Service.
Import Resume.

Definition bytes : Type := list Byte.byte.

Fixpoint bytes_eqb (a b : bytes) : bool :=
  match a, b with
  | [], [] => true
  | x :: a', y :: b' => Byte.eqb x y && bytes_eqb a' b'
  | _, _ => false
  end.

(** [b'%PDF'] *)
Definition pdf_magic : bytes := [Byte.x25; Byte.x50; Byte.x44; Byte.x46].
(** [b'PK\x03\x04'] *)
Definition docx_magic : bytes := [Byte.x50; Byte.x4b; Byte.x03; Byte.x04].

(** [file_bytes[:4] == b'%PDF'] *)
Definition is_pdf (file_bytes : bytes) : bool := bytes_eqb (firstn 4 file_bytes) pdf_magic.
(** [file_bytes[:4] == b'PK\x03\x04'] *)
Definition is_docx (file_bytes : bytes) : bool := bytes_eqb (firstn 4 file_bytes) docx_magic.

(** Exceptions raised inside the handlers' [try] blocks. *)
Inductive py_exc : Type :=
| RequestException                 (* requests.RequestException *)
| HTTPException (status_code : nat)
| CoreException (e : exc).         (* raised by the extraction core *)

(** outcome of [requests.get(url)] followed by [response.raise_for_status()];
    a missing Content-Type header is the empty string *)
Inductive download : Type :=
| DownloadFailed
| Downloaded (content : bytes) (content_type : string).

(** outcome of [requests.get(url)] alone, as in [view_resume] *)
Inductive fetch : Type :=
| FetchFailed
| Fetched (status_code : nat) (content : bytes).

(** the fixed record returned for an unsupported format *)
Record DummyResume : Type := MkDummy {
  d_name : string;
  d_email : string;
  d_phone : string;
  d_skills : list string;
  d_experience : list ExperienceRecord;
  d_education : list EducationRecord
}.

Definition dummy_data : DummyResume :=
  MkDummy "John Doe" "john.doe@example.com" "555-123-4567"
          ["Python"; "JavaScript"; "React"; "SQL"]
          [MkExp "Software Developer" "Tech Corp" "2020-Present"]
          [MkEdu "BS Computer Science" "University of Technology" "2019"].

Inductive response : Type :=
| ParsedData (p : ParsedResume)
| DummyData (d : DummyResume)
| HttpError (status_code : nat).

Inductive view_response : Type :=
| ViewText (text : string)
| ViewError (status_code : nat).

Section Handlers.
Variables extract_text_from_pdf extract_text_from_docx : bytes -> string.

(** The format dispatch of [parse_resume]: the extracted text, or [None]
    for an unsupported format. *)
Definition select_text (file_bytes : bytes) (content_type_header : string) : option string :=
  if is_pdf file_bytes then Some (extract_text_from_pdf file_bytes)
  else if is_docx file_bytes then Some (extract_text_from_docx file_bytes)
  else
    let content_type := Py.lower content_type_header in
    if Py.contains "pdf" content_type then Some (extract_text_from_pdf file_bytes)
    else if Py.contains "word" content_type || Py.contains "docx" content_type
    then Some (extract_text_from_docx file_bytes)
    else None.

(** the body of the [try] block of [parse_resume] *)
Definition parse_resume_body (d : download) : py_exc + response :=
  match d with
  | DownloadFailed => inl RequestException
  | Downloaded file_bytes content_type =>
      match select_text file_bytes content_type with
      | None => inr (DummyData dummy_data)
      | Some text =>
          if String.eqb text EmptyString || (String.length text <? 10)
          then inl (HTTPException 422)
          else match extract text with
               | Ok p => inr (ParsedData p)
               | Raise e => inl (CoreException e)
               end
      end
  end.

(** [parse_resume]: [except requests.RequestException] gives 400, any other
    [except Exception] (an [HTTPException] included) gives 500. *)
Definition parse_resume (d : download) : response :=
  match parse_resume_body d with
  | inr r => r
  | inl RequestException => HttpError 400
  | inl _ => HttpError 500
  end.

(** the body of the [try] block of [view_resume] *)
Definition view_resume_body (f : fetch) : py_exc + string :=
  match f with
  | FetchFailed => inl RequestException
  | Fetched status_code file_bytes =>
      if negb (status_code =? 200) then inl (HTTPException 400)
      else
        let extracted :=
          if is_pdf file_bytes then Some (extract_text_from_pdf file_bytes)
          else if is_docx file_bytes then Some (extract_text_from_docx file_bytes)
          else None in
        match extracted with
        | None => inl (HTTPException 415)
        | Some extracted_text =>
            if String.eqb (Py.strip extracted_text) EmptyString
            then inl (HTTPException 422)
            else inr extracted_text
        end
  end.

(** [view_resume]: its single [except Exception] turns every exception
    into a 500. *)
Definition view_resume (f : fetch) : view_response :=
  match view_resume_body f with
  | inr t => ViewText t
  | inl _ => ViewError 500
  end.

End Handlers.
End Service.

(** ** Notions used in the statements below *)
Module Analysis.
Import Re Extractors.

(** the group numbers a pattern can record *)
Fixpoint grp (r : re) : list nat :=
  match r with
  | Group n r1 => n :: grp r1
  | Seq r1 r2 | Alt r1 r2 => grp r1 ++ grp r2
  | Star _ r1 => grp r1
  | _ => []
  end.

Definition caps_from (G : list nat) (c : list (nat * (nat * nat))) : Prop :=
  Forall (fun p => In (fst p) G) c.

(** [nodupb l]: no string occurs twice in [l] *)
Fixpoint nodupb (l : list string) : bool :=
  match l with
  | [] => true
  | x :: l' => negb (existsb (String.eqb x) l') && nodupb l'
  end.

(** [n] spaces *)
Fixpoint spaces (n : nat) : string :=
  match n with 0 => EmptyString | S n' => String " " (spaces n') end.

Definition raises (p : page) : bool := match p with PageRaises => true | _ => false end.

(** the non-empty page texts *)
Fixpoint page_texts (pages : list page) : list string :=
  match pages with
  | [] => []
  | PageText (Some e) :: pages' =>
      if String.eqb e EmptyString then page_texts pages' else e :: page_texts pages'
  | _ :: pages' => page_texts pages'
  end.

(** each text followed by a newline, concatenated *)
Fixpoint lines_text (ts : list string) : string :=
  match ts with
  | [] => EmptyString
  | t :: ts' => (t ++ Py.nl ++ lines_text ts')%string
  end.

Definition no_newline (p : string) : Prop := ~ In Py.nl_char (list_ascii_of_string p).
End Analysis.

Module MoreDocs.
Import Docs.
(** a projects section with one bullet entry *)
Definition projects_text : string :=
  ("Projects" ++ NL ++ "- Resume Parser: a FastAPI service" ++ NL
   ++ "Extracts fields from resumes")%string.
End MoreDocs.

(** * Theorems *)
Import Resume Aux Docs NameSpec.

(** ** Concrete runs *)

(** (C1) The pipeline raises on a document whose experience section holds a
    date range: [re.split] with the capturing [date_pattern] yields [None]
    pieces, and [None.strip()] raises [AttributeError]. *)
Theorem extract_raises_on_date_range :
  extract date_range_text = Raise AttributeError.
Proof. vm_compute. reflexivity. Qed.

(** (C2, counterexample) On the Jane Smith document the education extractor
    yields one record, but its year does not contain "2019": the line "2019"
    is split off as an entry of its own and dropped by the length floor. *)
Lemma jane_smith_education_year_missing :
  ~ (exists e, extract_education jane_smith_text = Ok [e]
               /\ Py.contains "2019" (year e) = true).
Proof.
  intros [e [H1 H2]]. vm_compute in H1. injection H1 as <-.
  vm_compute in H2. discriminate.
Qed.

(** (C2, amended) On the Jane Smith document: name "Jane Smith", email
    "jane.smith@mail.com", phone "555-222-3344", and exactly one education
    record, whose year is the sentinel. *)
Theorem jane_smith_identity_and_education :
  extract_name jane_smith_text = Some "Jane Smith"
  /\ extract_email jane_smith_text = Some "jane.smith@mail.com"
  /\ extract_phone jane_smith_text = Some "555-222-3344"
  /\ extract_education jane_smith_text =
       Ok [MkEdu "Degree not specified"
                 ("Education" ++ Py.nl ++ "BS Computer Science" ++ Py.nl ++ "State University")
                 "Year not specified"].
Proof. vm_compute. repeat split. Qed.

(** (C3) The primary experience split consumes the date range it splits on:
    the pieces of ["Experience\n2020 - Present\n"] are the text before the
    range, the three group values (two of them [None]) and the text after,
    and they do not concatenate back to the section text. *)
Theorem experience_split_consumes_anchor :
  experience_split (section_of Experience date_range_text)
    = [Some ("Experience" ++ Py.nl)%string; None; None; Some "Present"; Some Py.nl]
  /\ concat_pieces (experience_split (section_of Experience date_range_text))
     <> section_of Experience date_range_text.
Proof. split; vm_compute; [reflexivity | discriminate]. Qed.

(** (C4, counterexample) The line "Academic Projects" is a header candidate
    of both Education and Projects and lies in both sections. *)
Lemma academic_projects_in_two_sections :
  positions Education "Academic Projects" = [0]
  /\ positions Projects "Academic Projects" = [0].
Proof. vm_compute. split; reflexivity. Qed.

(** (C5, counterexample) While Experience is open, the short line
    "Stanford University" contains the Education keyword "university" but
    does not close the section: it is appended to it. *)
Lemma university_line_stays_in_experience :
  section_lines Experience university_in_experience_text
    = [(0, "Experience"); (1, "Stanford University")]
  /\ is_header Education "Stanford University" = true.
Proof. vm_compute. split; reflexivity. Qed.

(** (C6, counterexample) [extract_name] tests the untrimmed length: the line
    "  Bob  " (length 7, trimmed length 3) is returned as "Bob", where the
    trimmed-length rule finds no name. *)
Lemma name_uses_untrimmed_length :
  extract_name "  Bob  " = Some "Bob" /\ name_by_trimmed_length "  Bob  " = None.
Proof. vm_compute. split; reflexivity. Qed.

(** ** Facts about [strip] and [lower] *)
Module StripFacts.

Fixpoint all_chars (p : ascii -> bool) (s : string) : bool :=
    match s with
    | EmptyString => true
    | String c s' => p c && all_chars p s'
    end.

Lemma all_chars_app : forall p a b,
    all_chars p (a ++ b) = all_chars p a && all_chars p b.
  Proof.
    intros p a b; induction a as [|c a IH]; simpl; [reflexivity|].
    rewrite IH, andb_assoc; reflexivity.
  Qed.

Lemma all_chars_rev : forall p s, all_chars p (Py.rev_string s) = all_chars p s.
  Proof.
    intros p s; induction s as [|c s IH]; simpl; [reflexivity|].
    rewrite all_chars_app, IH; simpl; rewrite andb_true_r, andb_comm; reflexivity.
  Qed.

Lemma rev_string_empty : forall s, Py.rev_string s = EmptyString -> s = EmptyString.
  Proof.
    intros [|c s]; simpl; [reflexivity|].
    destruct (Py.rev_string s); discriminate.
  Qed.

Lemma lstrip_empty : forall p s, Py.lstrip_by p s = EmptyString <-> all_chars p s = true.
  Proof.
    intros p s; induction s as [|c s IH]; simpl; [tauto|].
    destruct (p c); simpl; [exact IH | split; discriminate].
  Qed.

Lemma all_chars_lstrip : forall p s, all_chars p (Py.lstrip_by p s) = all_chars p s.
  Proof.
    intros p s; induction s as [|c s IH]; simpl; [reflexivity|].
    destruct (p c) eqn:E; simpl; [exact IH | rewrite E; reflexivity].
  Qed.

Lemma strip_by_empty : forall p s,
    Py.strip_by p s = EmptyString <-> all_chars p s = true.
  Proof.
    intros p s; unfold Py.strip_by; split.
    - intros H. apply rev_string_empty in H. apply lstrip_empty in H.
      rewrite all_chars_rev, all_chars_lstrip in H; exact H.
    - intros H.
      assert (Py.lstrip_by p (Py.rev_string (Py.lstrip_by p s)) = EmptyString) as ->;
        [|reflexivity].
      apply lstrip_empty. rewrite all_chars_rev, all_chars_lstrip; exact H.
  Qed.

Lemma is_space_lower_char : forall c, Py.is_space (Py.lower_char c) = Py.is_space c.
  Proof. intros [[] [] [] [] [] [] [] []]; reflexivity. Qed.

Lemma all_space_lower : forall s,
    all_chars Py.is_space (Py.lower s) = all_chars Py.is_space s.
  Proof.
    intros s; induction s as [|c s IH]; simpl; [reflexivity|].
    rewrite is_space_lower_char, IH; reflexivity.
  Qed.

Lemma strip_lower_empty : forall s,
    Py.strip (Py.lower s) = EmptyString <-> Py.strip s = EmptyString.
  Proof.
    intros s; unfold Py.strip; rewrite !strip_by_empty, all_space_lower; tauto.
  Qed.

Lemma contains_empty_hay : forall x, x <> EmptyString -> Py.contains x EmptyString = false.
  Proof. intros [|c x] H; [congruence | reflexivity]. Qed.

Lemma any_in_nonempty : forall xs s,
    Forall (fun x => x <> EmptyString) xs -> Py.any_in xs s = true -> s <> EmptyString.
  Proof.
    intros xs s Hne H ->. unfold Py.any_in in H.
    apply existsb_exists in H as [x [Hx Hc]].
    rewrite Forall_forall in Hne.
    rewrite contains_empty_hay in Hc by (apply Hne; exact Hx). discriminate.
  Qed.

End StripFacts.

(** ** The section loop *)
Module SectionFacts.
Import StripFacts.

Section Loop.
Variables hdr term : list string.

Definition hdr_test (line : string) : bool :=
      let line_lower := Py.strip (Py.lower line) in
      Py.any_in hdr line_lower && (String.length line_lower <? 30).

Lemma find_section_from_app : forall pre post b i,
      find_section_from hdr term b i (pre ++ post)
      = find_section_from hdr term b i pre
        ++ match state_after hdr term b pre with
           | Some b' => find_section_from hdr term b' (i + List.length pre) post
           | None => []
           end.
    Proof.
      induction pre as [|line pre IH]; intros post b i; simpl.
      - rewrite Nat.add_0_r; reflexivity.
      - destruct (Py.any_in hdr (Py.strip (Py.lower line))
                  && (String.length (Py.strip (Py.lower line)) <? 30)).
        + rewrite IH; simpl. rewrite Nat.add_succ_r; reflexivity.
        + destruct (b && negb (String.eqb (Py.strip (Py.lower line)) EmptyString)
                    && (String.length (Py.strip (Py.lower line)) <? 30)
                    && Py.any_in term (Py.strip (Py.lower line))); [reflexivity|].
          destruct (b && negb (String.eqb (Py.strip line) EmptyString));
            rewrite IH, Nat.add_succ_r; reflexivity.
    Qed.

Hypothesis hdr_nonempty : Forall (fun x => x <> EmptyString) hdr.

Lemma hdr_test_nonblank : forall line, hdr_test line = true -> blank line = false.
    Proof.
      intros line H. unfold hdr_test in H. apply andb_true_iff in H as [H _].
      apply any_in_nonempty in H; [|exact hdr_nonempty].
      unfold blank. apply String.eqb_neq. intros E.
      apply H, strip_lower_empty, E.
    Qed.

Lemma skipn_cons_nth : forall (L : list string) i,
      i < List.length L -> skipn i L = nth i L EmptyString :: skipn (S i) L.
    Proof.
      induction L as [|x L IH]; intros i Hi; simpl in Hi; [lia|].
      destruct i as [|i]; [reflexivity|]. simpl. apply IH. lia.
    Qed.

Lemma skipn_all_len : forall (L : list string) i,
      List.length L <= i -> skipn i L = [].
    Proof. intros L i H. apply skipn_all2. exact H. Qed.

Let keep (L : list string) (j : nat) : bool := negb (blank (nth j L EmptyString)).

    (** Once open, the section collects the non-blank lines of a range [i, t). *)
Lemma open_run : forall n L i, List.length L - i = n -> i <= List.length L ->
      exists t, i <= t <= List.length L /\
        map fst (find_section_from hdr term true i (skipn i L))
        = filter (keep L) (seq i (t - i)).
    Proof.
      induction n as [|n IH]; intros L i Hn Hi.
      - exists i. split; [lia|]. rewrite skipn_all_len by lia.
        rewrite Nat.sub_diag; reflexivity.
      - rewrite skipn_cons_nth by lia.
        destruct (IH L (S i)) as [t [Ht Heq]]; [lia|lia|].
        assert (Hseq : seq i (t - i) = i :: seq (S i) (t - S i)).
        { replace (t - i) with (S (t - S i)) by lia; reflexivity. }
        set (rest := skipn (S i) L) in *. simpl find_section_from.
        set (line := nth i L EmptyString) in *.
        destruct (Py.any_in hdr (Py.strip (Py.lower line))
                  && (String.length (Py.strip (Py.lower line)) <? 30)) eqn:Eh.
        + exists t. split; [lia|]. cbn [map fst]. rewrite Heq, Hseq. cbn [filter].
          change (keep L i) with (negb (blank line)).
          rewrite (hdr_test_nonblank line Eh). reflexivity.
        + destruct (negb (String.eqb (Py.strip (Py.lower line)) EmptyString)
                    && (String.length (Py.strip (Py.lower line)) <? 30)
                    && Py.any_in term (Py.strip (Py.lower line))).
          * exists i. split; [lia|]. rewrite Nat.sub_diag; reflexivity.
          * exists t. split; [lia|]. rewrite Hseq. simpl filter.
            change (keep L i) with (negb (blank line)). unfold blank.
            destruct (String.eqb (Py.strip line) EmptyString); cbn [negb andb map fst];
              rewrite Heq; reflexivity.
    Qed.

    (** While closed, the loop skips to the first header candidate. *)
Lemma closed_run : forall n L i, List.length L - i = n -> i <= List.length L ->
      (find_section_from hdr term false i (skipn i L) = []
       /\ forall j, i <= j < List.length L -> hdr_test (nth j L EmptyString) = false)
      \/ exists h, i <= h < List.length L
           /\ hdr_test (nth h L EmptyString) = true
           /\ (forall j, i <= j < h -> hdr_test (nth j L EmptyString) = false)
           /\ find_section_from hdr term false i (skipn i L)
              = (h, nth h L EmptyString) :: find_section_from hdr term true (S h) (skipn (S h) L).
    Proof.
      induction n as [|n IH]; intros L i Hn Hi.
      - left. rewrite skipn_all_len by lia. split; [reflexivity|]. intros j Hj; lia.
      - rewrite skipn_cons_nth by lia.
        set (rest := skipn (S i) L) in *. simpl find_section_from.
        destruct (hdr_test (nth i L EmptyString)) eqn:Eh.
        + right. exists i. split; [lia|]. split; [exact Eh|].
          split; [intros j Hj; lia|].
          unfold hdr_test in Eh. rewrite Eh. reflexivity.
        + unfold hdr_test in Eh. rewrite Eh. simpl.
          destruct (IH L (S i)) as [[H1 H2] | [h [Hh [H1 [H2 H3]]]]]; [lia|lia| |].
          * left. split; [exact H1|]. intros j Hj.
            destruct (Nat.eq_dec j i) as [->|]; [exact Eh|]. apply H2; lia.
          * right. exists h. repeat split; try lia; [exact H1| |exact H3].
            intros j Hj. destruct (Nat.eq_dec j i) as [->|]; [exact Eh|]. apply H2; lia.
    Qed.

End Loop.

Lemma indicators_nonempty : forall k, Forall (fun x => x <> EmptyString) (indicators k).
  Proof. intros []; repeat constructor; discriminate. Qed.

End SectionFacts.

(** ** Sections *)
Import SectionFacts.

(** (C4, amended) Each kind's section is found by its own scan of all the
    lines: it is empty when the document has no header candidate of that
    kind, and otherwise it is made of the non-blank lines of one contiguous
    range of line positions [h, t) whose first line [h] is the first header
    candidate of that kind.  Sections of different kinds are not kept apart. *)
Theorem section_is_contiguous_run : forall k text,
  let L := Py.split_lines text in
  (positions k text = []
   /\ forall j, j < List.length L -> is_header k (nth j L EmptyString) = false)
  \/ exists h t, h < t <= List.length L
       /\ is_header k (nth h L EmptyString) = true
       /\ (forall j, j < h -> is_header k (nth j L EmptyString) = false)
       /\ positions k text = filter (fun j => negb (blank (nth j L EmptyString))) (seq h (t - h)).
Proof.
  intros k text L.
  unfold positions, section_lines, find_section. fold L.
  change (is_header k) with (hdr_test (indicators k)).
  destruct (closed_run (indicators k) (terminators k) (List.length L - 0) L 0)
    as [[H1 H2] | [h [Hh [H1 [H2 H3]]]]]; [reflexivity | lia | |].
  - left. change (skipn 0 L) with L in H1. rewrite H1. split; [reflexivity|].
    intros j Hj. apply H2. lia.
  - right. change (skipn 0 L) with L in H3. rewrite H3.
    destruct (open_run (indicators k) (terminators k) (indicators_nonempty k)
                (List.length L - S h) L (S h)) as [t [Ht Heq]]; [reflexivity | lia |].
    exists h, t. split; [lia|]. split; [exact H1|]. split; [intros j Hj; apply H2; lia|].
    cbn [map fst]. rewrite Heq.
    replace (t - h) with (S (t - S h)) by lia. cbn [seq filter].
    rewrite (hdr_test_nonblank (indicators k) (indicators_nonempty k) _ H1).
    reflexivity.
Qed.

(** (C5, amended) While the section of kind [k] is open, a line that is not
    a header candidate of [k], is non-empty after lowercasing and trimming,
    is shorter than 30 characters that way, and contains one of [k]'s
    closing keywords ([terminators k]) ends the scan: neither that line nor
    any later one enters the section.  In particular "University of
    Example" followed by "Experience" gives an Education section holding
    only the first line.  Conversely, a line that is not a header candidate
    of [k] and contains none of [k]'s closing keywords (such as a line
    holding only another kind's header keyword outside that list) does not
    close the section: it is appended unless it is blank, and the section
    stays open for the lines after it. *)
Theorem closing_line_ends_section :
  (forall k text pre line post,
     Py.split_lines text = pre ++ line :: post ->
     state_after (indicators k) (terminators k) false pre = Some true ->
     is_header k line = false ->
     Py.strip (Py.lower line) <> EmptyString ->
     String.length (Py.strip (Py.lower line)) < 30 ->
     Py.any_in (terminators k) (Py.strip (Py.lower line)) = true ->
     section_lines k text = find_section_from (indicators k) (terminators k) false 0 pre)
  /\ section_lines Education university_then_experience_text
     = [(0, "University of Example")]
  /\ (forall k text pre line post,
     Py.split_lines text = pre ++ line :: post ->
     state_after (indicators k) (terminators k) false pre = Some true ->
     is_header k line = false ->
     Py.any_in (terminators k) (Py.strip (Py.lower line)) = false ->
     section_lines k text
     = find_section_from (indicators k) (terminators k) false 0 pre
       ++ (if String.eqb (Py.strip line) EmptyString then []
           else [(List.length pre, line)])
       ++ find_section_from (indicators k) (terminators k) true (S (List.length pre)) post).
Proof.
  split; [|split; [vm_compute; reflexivity|]].
  - intros k text pre line post Hl Hs Hh Hne Hlen Ht.
    unfold section_lines, find_section. rewrite Hl, find_section_from_app, Hs.
    simpl (find_section_from _ _ true _ (line :: post)).
    unfold is_header in Hh. rewrite Hh.
    apply String.eqb_neq in Hne. rewrite Hne, Ht.
    apply Nat.ltb_lt in Hlen. rewrite Hlen. simpl. apply app_nil_r.
  - intros k text pre line post Hl Hs Hh Ht.
    unfold section_lines, find_section. rewrite Hl, find_section_from_app, Hs.
    f_equal. simpl (find_section_from _ _ true _ (line :: post)).
    unfold is_header in Hh. rewrite Hh, Ht, andb_false_r.
    destruct (String.eqb (Py.strip line) EmptyString); reflexivity.
Qed.

Lemma closing_line_ends_section_witness :
  section_lines Education university_then_experience_text
  = find_section_from (indicators Education) (terminators Education) false 0
      ["University of Example"]
  /\ section_lines Experience university_in_experience_text
  = find_section_from (indicators Experience) (terminators Experience) false 0
      ["Experience"]
    ++ (if String.eqb (Py.strip "Stanford University") EmptyString then []
        else [(1, "Stanford University")])
    ++ find_section_from (indicators Experience) (terminators Experience) true 2 [].
Proof.
  split.
  - apply (proj1 closing_line_ends_section Education university_then_experience_text
             ["University of Example"] "Experience" []);
      vm_compute; first [reflexivity | discriminate | lia].
  - apply (proj2 (proj2 closing_line_ends_section) Experience
             university_in_experience_text ["Experience"] "Stanford University" []);
      vm_compute; reflexivity.
Defined.

(** (C10) While the section of kind [k] is open, a header candidate of [k]
    is appended and the section stays open, whether or not the line also
    holds one of [k]'s closing keywords. *)
Theorem own_header_appended : forall k text pre line post,
  Py.split_lines text = pre ++ line :: post ->
  state_after (indicators k) (terminators k) false pre = Some true ->
  is_header k line = true ->
  section_lines k text
  = find_section_from (indicators k) (terminators k) false 0 pre
    ++ (List.length pre, line)
       :: find_section_from (indicators k) (terminators k) true (S (List.length pre)) post.
Proof.
  intros k text pre line post Hl Hs Hh.
  unfold section_lines, find_section. rewrite Hl, find_section_from_app, Hs.
  f_equal. simpl. unfold is_header in Hh. rewrite Hh. reflexivity.
Qed.

Lemma own_header_appended_witness :
  section_lines Education ("Education" ++ Py.nl ++ "Academic Projects")%string
  = [(0, "Education"); (1, "Academic Projects")].
Proof.
  rewrite (own_header_appended Education _ ["Education"] "Academic Projects" []);
    vm_compute; reflexivity.
Defined.

(** ** Name *)

Lemma first_name_line_spec : forall lines n,
  (first_name_line lines = Some n <->
   exists pre line post, lines = pre ++ line :: post
     /\ Forall (fun l => name_ok_untrimmed l = false) pre
     /\ name_ok_untrimmed line = true /\ n = Py.strip line)
  /\ (first_name_line lines = None <->
      Forall (fun l => name_ok_untrimmed l = false) lines).
Proof.
  induction lines as [|l lines IH]; intros n.
  - split; split.
    + discriminate.
    + intros [pre [line [post [H _]]]]. destruct pre; discriminate.
    + constructor.
    + reflexivity.
  - destruct (IH n) as [IHs IHn].
    change (first_name_line (l :: lines))
      with (if name_ok_untrimmed l then Some (Py.strip l) else first_name_line lines).
    destruct (name_ok_untrimmed l) eqn:E; split; split.
    + intros H. injection H as <-. exists [], l, lines. repeat split; auto.
    + intros [pre [line [post [H1 [H2 [H3 H4]]]]]].
      destruct pre as [|p pre].
      * injection H1 as -> ->. subst; reflexivity.
      * injection H1 as -> _. inversion H2; congruence.
    + discriminate.
    + intros H. inversion H; congruence.
    + intros H. apply IHs in H as [pre [line [post [H1 [H2 [H3 H4]]]]]].
      exists (l :: pre), line, post. repeat split; auto. simpl; congruence.
    + intros [pre [line [post [H1 [H2 [H3 H4]]]]]].
      destruct pre as [|p pre].
      * injection H1 as -> _. congruence.
      * injection H1 as -> H1. inversion H2; subst.
        apply IHs. exists pre, line, post. auto.
    + intros H. constructor; [exact E|]. apply IHn, H.
    + intros H. inversion H; subst. apply IHn. assumption.
Qed.

(** (C6, amended) [extract_name] scans the first 5 lines and returns,
    trimmed, the first line whose untrimmed length is strictly between 5
    and 40 and whose lowercase form contains none of "@", "http", "resume",
    "cv", "email", "phone"; it returns [None] when no such line exists. *)
Theorem extract_name_first_match : forall text n,
  let lines := firstn 5 (Py.split_lines text) in
  (extract_name text = Some n <->
   exists pre line post, lines = pre ++ line :: post
     /\ Forall (fun l => name_ok_untrimmed l = false) pre
     /\ name_ok_untrimmed line = true /\ n = Py.strip line)
  /\ (extract_name text = None <->
      Forall (fun l => name_ok_untrimmed l = false) lines).
Proof. intros text n lines. apply first_name_line_spec. Qed.

(** ** Sentinels *)

Lemma or_else_nonempty : forall o d,
  d <> EmptyString -> Py.or_else o d <> EmptyString.
Proof.
  intros [s|] d Hd; simpl; [|exact Hd].
  destruct (String.eqb s EmptyString) eqn:E; [exact Hd|].
  apply String.eqb_neq; exact E.
Qed.

Lemma education_entry_filled : forall entry r,
  education_entry entry = Some r -> education_filled r.
Proof.
  intros entry r. unfold education_entry.
  destruct (_ || _); [|discriminate]. intros H. injection H as <-.
  repeat split; simpl; apply or_else_nonempty; discriminate.
Qed.

Lemma education_entries_filled : forall entries recs,
  education_entries entries = Ok recs -> Forall education_filled recs.
Proof.
  induction entries as [|[entry|] entries IH]; intros recs H; simpl in H.
  - injection H as <-. constructor.
  - destruct (String.length (Py.strip entry) <? 10); [apply IH, H|].
    destruct (education_entries entries) as [recs'|e] eqn:E; simpl in H; [|discriminate].
    specialize (IH recs' eq_refl).
    destruct (education_entry entry) as [r|] eqn:Er; injection H as <-;
      [constructor; [apply (education_entry_filled entry), Er|]|]; exact IH.
  - discriminate.
Qed.

Lemma experience_entry_filled : forall entry r,
  experience_entry entry = Some r -> experience_filled r.
Proof.
  intros entry r. unfold experience_entry.
  destruct (_ || _); [|discriminate]. intros H. injection H as <-.
  repeat split; simpl; apply or_else_nonempty; discriminate.
Qed.

Lemma experience_entries_filled : forall entries recs,
  experience_entries entries = Ok recs -> Forall experience_filled recs.
Proof.
  induction entries as [|[entry|] entries IH]; intros recs H; simpl in H.
  - injection H as <-. constructor.
  - destruct (_ || _); [apply IH, H|].
    destruct (experience_entries entries) as [recs'|e] eqn:E; simpl in H; [|discriminate].
    specialize (IH recs' eq_refl).
    destruct (experience_entry entry) as [r|] eqn:Er; injection H as <-;
      [constructor; [apply (experience_entry_filled entry), Er|]|]; exact IH.
  - discriminate.
Qed.

(** (C7) Every education and experience record the extractors emit has
    three non-empty fields (an extracted value or a fixed sentinel). *)
Theorem records_filled : forall text,
  (forall recs, extract_education text = Ok recs -> Forall education_filled recs)
  /\ (forall recs, extract_experience text = Ok recs -> Forall experience_filled recs).
Proof.
  intros text; split; intros recs H.
  - unfold extract_education in H.
    destruct (String.eqb _ EmptyString); [injection H as <-; constructor|].
    apply (education_entries_filled _ _ H).
  - unfold extract_experience in H.
    destruct (String.eqb _ EmptyString); [injection H as <-; constructor|].
    apply (experience_entries_filled _ _ H).
Qed.

Lemma records_filled_witness :
  Forall education_filled
    [MkEdu "Degree not specified"
       ("Education" ++ Py.nl ++ "BS Computer Science" ++ Py.nl ++ "State University")
       "Year not specified"]
  /\ Forall experience_filled
       [MkExp ("Experience" ++ Py.nl ++ "Software Engineer") "Acme Corp"
              "Duration not specified"].
Proof.
  split.
  - apply (proj1 (records_filled two_sections_text)). vm_compute. reflexivity.
  - apply (proj2 (records_filled two_sections_text)). vm_compute. reflexivity.
Defined.

(** ** Skills *)
Module ReFacts.
Import Re.

Lemma skipn_cons_inv : forall (l : list ascii) i c cs,
    skipn i l = c :: cs -> nth_error l i = Some c /\ skipn (S i) l = cs.
  Proof.
    induction l as [|x l IH]; intros [|i] c cs H; simpl in *; try discriminate.
    - injection H as -> ->. split; reflexivity.
    - apply IH, H.
  Qed.

Lemma hd_skipn : forall (l : list ascii) i, hd_error (skipn i l) = nth_error l i.
  Proof. induction l as [|x l IH]; intros [|i]; simpl; auto. Qed.

Lemma chr_step : forall l i c cs,
    skipn i l = c :: cs -> MSt (Some c) cs (S i) [] = state_at l (S i).
  Proof.
    intros l i c cs H. apply skipn_cons_inv in H as [H1 H2].
    unfold state_at. rewrite H1, H2. reflexivity.
  Qed.

Lemma m_chr : forall ic c l i k,
    m ic (chr c) (state_at l i) k
    = match skipn i l with
      | x :: xs => if chr_ok ic (Ascii.eqb c) x then k (MSt (Some x) xs (S i) []) else None
      | [] => None
      end.
  Proof. reflexivity. Qed.

Lemma m_lit_list : forall w l i k,
    m false (lit_list w) (state_at l i) k
    = if list_prefix w (skipn i l) then k (state_at l (i + List.length w)) else None.
  Proof.
    induction w as [|c w IH]; intros l i k.
    - simpl. rewrite Nat.add_0_r. reflexivity.
    - destruct w as [|c' w].
      + simpl. destruct (skipn i l) as [|x xs] eqn:E; [reflexivity|].
        unfold chr_ok. rewrite orb_false_r, andb_true_r.
        destruct (Ascii.eqb c x); [|reflexivity].
        rewrite (chr_step l i x xs E), Nat.add_1_r. reflexivity.
      + change (lit_list (c :: c' :: w)) with (Seq (chr c) (lit_list (c' :: w))).
        cbn [m]. rewrite m_chr. destruct (skipn i l) as [|x xs] eqn:E; [reflexivity|].
        unfold chr_ok. rewrite orb_false_r. cbn [list_prefix].
        destruct (Ascii.eqb c x); [|reflexivity]. simpl andb.
        rewrite (chr_step l i x xs E), IH.
        apply skipn_cons_inv in E as [_ ->].
        replace (S i + List.length (c' :: w)) with (i + List.length (c :: c' :: w))
          by (simpl; lia).
        reflexivity.
  Qed.

Lemma at_boundary_state_at : forall l i, at_boundary (state_at l i) = boundary l i.
  Proof.
    intros l i. unfold at_boundary, boundary, word_at, state_at. simpl.
    rewrite hd_skipn. destruct i; reflexivity.
  Qed.

Lemma match_skill_pattern : forall skill l i,
    Resume.is_some (match_at false (Resume.skill_pattern skill) l i)
    = word_bounded_at (list_ascii_of_string skill) l i.
  Proof.
    intros skill l i. unfold match_at, Resume.skill_pattern, word_bounded_at. simpl seqs.
    cbn [m]. rewrite at_boundary_state_at.
    destruct (boundary l i); [|reflexivity]. simpl andb.
    unfold lit. rewrite m_lit_list.
    destruct (list_prefix _ _); [|reflexivity].
    cbn [m]. rewrite at_boundary_state_at.
    destruct (boundary l _); reflexivity.
  Qed.

Lemma scan_some : forall ic r l n i,
    Resume.is_some (scan ic r l i n)
    = existsb (fun j => Resume.is_some (match_at ic r l j)) (seq i n).
  Proof.
    induction n as [|n IH]; intros i; simpl; [reflexivity|].
    destruct (match_at ic r l i); simpl; [reflexivity|]. apply IH.
  Qed.

Lemma existsb_ext : forall (A : Type) (f g : A -> bool) l,
    (forall x, f x = g x) -> existsb f l = existsb g l.
  Proof. intros A f g l H. induction l as [|x l IH]; simpl; [reflexivity|]. rewrite H, IH; reflexivity. Qed.

End ReFacts.

(** (C8) The skills are exactly the vocabulary entries that occur in the
    lowercased text with a word boundary ([\b]) on both sides, listed in
    vocabulary order; on "python javascript leadership" they are
    ["python"; "javascript"; "leadership"]. *)
Theorem extract_skills_vocabulary_order :
  (forall text, extract_skills text
     = filter (fun skill => word_bounded_occurs skill (Py.lower text)) skill_keywords)
  /\ extract_skills "python javascript leadership" = ["python"; "javascript"; "leadership"].
Proof.
  split; [|vm_compute; reflexivity].
  intros text. unfold extract_skills.
  induction skill_keywords as [|skill ks IH]; [reflexivity|].
  simpl filter. rewrite IH.
  unfold Re.search, Re.search_from. rewrite ReFacts.scan_some, Nat.sub_0_r.
  unfold word_bounded_occurs.
  rewrite (ReFacts.existsb_ext _ _ _ _ (fun j => ReFacts.match_skill_pattern skill _ j)).
  reflexivity.
Qed.

(** ** The HTTP handlers, the text extractors and the extraction core: further properties *)
Import Service Extractors Analysis MoreDocs.

(** [parse_resume] answers with parsed data, the fixed dummy data, the
    status 400 or the status 500; the status 400 comes exactly when the
    download failed, and its 422 is caught by its own [except Exception]
    and never reaches the client. *)
Theorem parse_resume_outcomes : forall pdf docx d,
  (parse_resume pdf docx d = HttpError 400 <-> d = DownloadFailed)
  /\ ((exists p, parse_resume pdf docx d = ParsedData p)
      \/ parse_resume pdf docx d = DummyData dummy_data
      \/ parse_resume pdf docx d = HttpError 400
      \/ parse_resume pdf docx d = HttpError 500).
Proof.
  intros pdf docx [|b ct]; unfold parse_resume, parse_resume_body.
  - split; [split; reflexivity|]. right; right; left. reflexivity.
  - destruct (select_text pdf docx b ct) as [text|].
    2: { split; [split; discriminate|]. right; left; reflexivity. }
    destruct (_ || _).
    { split; [split; discriminate|]. right; right; right; reflexivity. }
    destruct (extract text) as [p|e].
    + split; [split; discriminate|]. left; exists p; reflexivity.
    + split; [split; discriminate|]. right; right; right; reflexivity.
Qed.

(** A supported document whose extracted text is shorter than 10 characters
    gets the status 500. *)
Theorem parse_resume_short_text_500 : forall pdf docx b ct text,
  select_text pdf docx b ct = Some text -> String.length text < 10 ->
  parse_resume pdf docx (Downloaded b ct) = HttpError 500.
Proof.
  intros pdf docx b ct text Hs Hl. unfold parse_resume, parse_resume_body.
  rewrite Hs. apply Nat.ltb_lt in Hl. rewrite Hl, orb_true_r. reflexivity.
Qed.

Lemma parse_resume_short_text_500_witness :
  parse_resume (fun _ => "short") (fun _ => "") (Downloaded pdf_magic "") = HttpError 500.
Proof.
  apply (parse_resume_short_text_500 (fun _ => "short") (fun _ => "") pdf_magic "" "short");
    vm_compute; [reflexivity | lia].
Defined.

(** [parse_resume] returns the dummy data exactly when neither the magic
    bytes nor the lowercased Content-Type ("pdf", "word", "docx") identify
    the format. *)
Theorem parse_resume_dummy_iff_unsupported : forall pdf docx b ct,
  parse_resume pdf docx (Downloaded b ct) = DummyData dummy_data
  <-> is_pdf b = false /\ is_docx b = false
      /\ Py.contains "pdf" (Py.lower ct) = false
      /\ Py.contains "word" (Py.lower ct) = false
      /\ Py.contains "docx" (Py.lower ct) = false.
Proof.
  intros pdf docx b ct. unfold parse_resume, parse_resume_body.
  assert (Hsel : select_text pdf docx b ct = None <->
                 is_pdf b = false /\ is_docx b = false
                 /\ Py.contains "pdf" (Py.lower ct) = false
                 /\ Py.contains "word" (Py.lower ct) = false
                 /\ Py.contains "docx" (Py.lower ct) = false).
  { unfold select_text.
    destruct (is_pdf b); [split; [discriminate|intuition discriminate]|].
    destruct (is_docx b); [split; [discriminate|intuition discriminate]|].
    destruct (Py.contains "pdf" _); [split; [discriminate|intuition discriminate]|].
    destruct (Py.contains "word" _), (Py.contains "docx" _); simpl;
      (split; [try discriminate; intros _; tauto|intuition discriminate]). }
  rewrite <- Hsel. destruct (select_text pdf docx b ct) as [text|].
  - split; [|discriminate]. destruct (_ || _); [discriminate|].
    destruct (extract text); discriminate.
  - split; reflexivity.
Qed.

(** [parse_resume] returns parsed data [p] exactly when the download
    succeeded, the format was identified, the extracted text has at least 10
    characters and the extraction core returns [p] on it. *)
Theorem parse_resume_parsed_iff : forall pdf docx d p,
  parse_resume pdf docx d = ParsedData p
  <-> exists b ct text, d = Downloaded b ct /\ select_text pdf docx b ct = Some text
        /\ 10 <= String.length text /\ extract text = Ok p.
Proof.
  intros pdf docx d p. unfold parse_resume, parse_resume_body. split.
  - destruct d as [|b ct]; [discriminate|].
    destruct (select_text pdf docx b ct) as [text|] eqn:Es; [|discriminate].
    destruct (String.eqb text EmptyString || (String.length text <? 10)) eqn:El;
      [discriminate|].
    apply orb_false_iff in El as [_ El]. apply Nat.ltb_ge in El.
    destruct (extract text) as [p'|e] eqn:Ex; [|discriminate].
    intros H. injection H as <-. exists b, ct, text. auto.
  - intros [b [ct [text [-> [Es [El Ex]]]]]]. rewrite Es.
    assert (Ht : String.eqb text EmptyString = false).
    { destruct text; [simpl in El; lia|reflexivity]. }
    apply Nat.ltb_ge in El. rewrite Ht, El, Ex. reflexivity.
Qed.

(** [view_resume] returns a text exactly when the fetch gave status 200, the
    magic bytes identify PDF or DOCX, and the text extracted by the matching
    extractor is not blank; the text is returned unstripped. *)
Theorem view_resume_text_iff : forall pdf docx f t,
  view_resume pdf docx f = ViewText t
  <-> exists b, f = Fetched 200 b
        /\ ((is_pdf b = true /\ t = pdf b) \/ (is_pdf b = false /\ is_docx b = true /\ t = docx b))
        /\ Py.strip t <> EmptyString.
Proof.
  intros pdf docx f t. unfold view_resume, view_resume_body. split.
  - destruct f as [|status b]; [discriminate|].
    destruct (negb (status =? 200)) eqn:Est; [discriminate|].
    apply negb_false_iff, Nat.eqb_eq in Est. subst status.
    destruct (is_pdf b) eqn:Ep; [|destruct (is_docx b) eqn:Ed; [|discriminate]];
      (destruct (String.eqb (Py.strip _) EmptyString) eqn:Eb; [discriminate|]);
      intros H; injection H as <-; exists b; (split; [reflexivity|]);
      (split; [auto|apply String.eqb_neq; exact Eb]).
  - intros [b [-> [Hsel Hb]]]. simpl.
    apply String.eqb_neq in Hb.
    destruct Hsel as [[-> ->]|[-> [-> ->]]]; rewrite Hb; reflexivity.
Qed.

Module SplitFacts.
Import Re.

Lemma string_of_list_ascii_app : forall a b,
  string_of_list_ascii (a ++ b) = (string_of_list_ascii a ++ string_of_list_ascii b)%string.
Proof. induction a as [|c a IH]; intros b; simpl; [reflexivity|]. rewrite IH. reflexivity. Qed.

Lemma slice_to_end : forall (l : list ascii) i,
  slice l i (List.length l) = string_of_list_ascii (skipn i l).
Proof.
  intros l i. unfold slice. rewrite firstn_all2; [reflexivity|].
  rewrite length_skipn. lia.
Qed.

Lemma slice_nl : forall (l : list ascii) i a,
  i <= a -> nth_error l a = Some Py.nl_char ->
  (slice l i a ++ Py.nl ++ slice l (S a) (List.length l))%string
  = slice l i (List.length l).
Proof.
  intros l i a Hia Ha. rewrite !slice_to_end. unfold slice.
  assert (Hs : skipn a l = Py.nl_char :: skipn (S a) l).
  { clear Hia. revert l Ha. induction a as [|a IH]; intros [|c l] Ha; simpl in *;
      try discriminate.
    - injection Ha as ->. reflexivity.
    - apply IH, Ha. }
  rewrite <- (firstn_skipn (a - i) (skipn i l)) at 2.
  rewrite skipn_skipn. replace (a - i + i) with a by lia. rewrite Hs.
  rewrite string_of_list_ascii_app. reflexivity.
Qed.

Lemma scan_inv : forall ic r l n i a x,
  scan ic r l i n = Some (a, x) -> i <= a /\ match_at ic r l a = Some x.
Proof.
  induction n as [|n IH]; intros i a x H; simpl in H; [discriminate|].
  destruct (match_at ic r l i) as [s|] eqn:E.
  - injection H as <- <-. split; [lia|exact E].
  - apply IH in H as [H1 H2]. split; [lia|exact H2].
Qed.

Lemma nl_match : forall r l a x,
  match_at false (Seq newline (Ahead r)) l a = Some x ->
  nth_error l a = Some Py.nl_char /\ pos x = S a.
Proof.
  intros r l a x. unfold match_at. cbn [m]. unfold newline. rewrite ReFacts.m_chr.
  destruct (skipn a l) as [|c cs] eqn:E; [discriminate|].
  unfold chr_ok. rewrite orb_false_r.
  destruct (Ascii.eqb Py.nl_char c) eqn:Ec; [|discriminate].
  apply Ascii.eqb_eq in Ec. subst c. cbn [m].
  destruct (m false r _ _); [|discriminate]. intros H. injection H as <-.
  apply ReFacts.skipn_cons_inv in E as [E _]. split; [exact E|reflexivity].
Qed.

Lemma split_pieces_nonempty : forall l ng last xs, split_pieces l ng last xs <> [].
Proof. intros l ng last [|x xs]; discriminate. Qed.

Lemma join_cons : forall sep x xs, xs <> [] ->
  Py.join sep (x :: xs) = (x ++ sep ++ Py.join sep xs)%string.
Proof. intros sep x [|y xs] H; [congruence|reflexivity]. Qed.

Lemma nl_split_from : forall r l fuel i, i <= List.length l ->
  exists ps, split_pieces l 0 i (finditer_from false (Seq newline (Ahead r)) l i fuel) = map Some ps
    /\ Py.join Py.nl ps = slice l i (List.length l).
Proof.
  intros r l fuel. induction fuel as [|f IH]; intros i Hi.
  - exists [slice l i (List.length l)]. split; reflexivity.
  - cbn [finditer_from]. replace (List.length l <? i) with false
      by (symmetry; apply Nat.ltb_ge; exact Hi).
    destruct (search_from false _ l i) as [[a x]|] eqn:Es;
      [|exists [slice l i (List.length l)]; split; reflexivity].
    apply scan_inv in Es as [Hia Hm]. apply nl_match in Hm as [Ha Hx].
    assert (Hal : a < List.length l) by (apply nth_error_Some; congruence).
    cbn [fst snd]. rewrite Hx, (proj2 (Nat.eqb_neq (S a) a)) by lia.
    destruct (IH (S a)) as [ps [Hps Hj]]; [lia|].
    exists (slice l i a :: ps). cbn [split_pieces fst snd]. rewrite Hx. simpl seq. simpl map.
    simpl app. rewrite Hps. split; [reflexivity|].
    rewrite join_cons.
    + rewrite Hj. apply slice_nl; assumption.
    + intros ->. exact (split_pieces_nonempty _ _ _ _ Hps).
Qed.

Lemma nl_split : forall r t, ngroups r = 0 ->
  exists ps, split false (Seq newline (Ahead r)) t = map Some ps /\ Py.join Py.nl ps = t.
Proof.
  intros r t Hr. unfold split, finditer. cbn [ngroups]. rewrite Hr.
  destruct (nl_split_from r (list_ascii_of_string t) (S (List.length (list_ascii_of_string t))) 0)
    as [ps [H1 H2]]; [lia|].
  exists ps. split; [exact H1|]. rewrite H2, slice_to_end. apply string_of_list_ascii_of_string.
Qed.

Lemma education_split_lossless : forall t,
  exists ps, split false education_split_pattern t = map Some ps /\ Py.join Py.nl ps = t.
Proof. intros t. apply nl_split. reflexivity. Qed.

Lemma project_split_lossless : forall t,
  exists ps, split false project_split_pattern t = map Some ps /\ Py.join Py.nl ps = t.
Proof. intros t. apply nl_split. reflexivity. Qed.

Lemma year_line_split_lossless : forall t,
  exists ps, split false year_line_split_pattern t = map Some ps /\ Py.join Py.nl ps = t.
Proof. intros t. apply nl_split. reflexivity. Qed.
End SplitFacts.

(** The newline-lookahead splits of the education section, the projects
    section and the experience fallback lose no text: the pieces are all
    strings, and joining them with "\n" gives back the input. *)
Theorem newline_splits_lossless : forall t,
  (exists ps, Re.split false education_split_pattern t = map Some ps /\ Py.join Py.nl ps = t)
  /\ (exists ps, Re.split false project_split_pattern t = map Some ps /\ Py.join Py.nl ps = t)
  /\ (exists ps, Re.split false year_line_split_pattern t = map Some ps /\ Py.join Py.nl ps = t).
Proof.
  intros t. split; [|split];
    [apply SplitFacts.education_split_lossless|apply SplitFacts.project_split_lossless
    |apply SplitFacts.year_line_split_lossless].
Qed.

Module CapsFacts.
Import Re.
Lemma caps_from_app : forall G c1 c2, caps_from G c1 -> caps_from G c2 -> caps_from G (c1 ++ c2).
Proof. intros. apply Forall_app; auto. Qed.

Lemma caps_from_incl : forall G G' c, incl G G' -> caps_from G c -> caps_from G' c.
Proof. intros G G' c Hi H. eapply Forall_impl; [|exact H]. intros p Hp. apply Hi, Hp. Qed.

Lemma m_caps : forall ic r s k x, m ic r s k = Some x ->
  exists s' c, k s' = Some x /\ caps s' = c ++ caps s /\ caps_from (grp r) c.
Proof.
  intros ic r. induction r as [| p | r1 IH1 r2 IH2 | r1 IH1 r2 IH2 | g r1 IH1 | n r1 IH1
                               | r1 IH1 | | | ]; intros s k x H; cbn [m] in H.
  - exists s, []. repeat split; auto. constructor.
  - destruct (rest s) as [|c cs]; [discriminate|]. destruct (chr_ok ic p c); [|discriminate].
    eexists; exists []; split; [exact H|split; [reflexivity|constructor]].
  - apply IH1 in H as [s1 [c1 [H1 [Hc1 Hg1]]]]. apply IH2 in H1 as [s2 [c2 [H2 [Hc2 Hg2]]]].
    exists s2, (c2 ++ c1). repeat split; [exact H2| rewrite Hc2, Hc1, app_assoc; reflexivity|].
    apply caps_from_app; (eapply caps_from_incl; [|eassumption]); intros y Hy; cbn [grp];
      apply in_or_app; auto.
  - destruct (m ic r1 s k) as [y|] eqn:E.
    + injection H as <-. apply IH1 in E as [s' [c [H1 [H2 H3]]]].
      exists s', c. repeat split; auto.
      eapply caps_from_incl; [|eassumption]. intros z Hz; apply in_or_app; auto.
    + apply IH2 in H as [s' [c [H1 [H2 H3]]]].
      exists s', c. repeat split; auto.
      eapply caps_from_incl; [|eassumption]. intros z Hz; apply in_or_app; auto.
  - cut (forall n s0, caps s0 = [] ++ caps s \/ (exists c0, caps s0 = c0 ++ caps s /\ caps_from (grp r1) c0) ->
         (fix loop (n : nat) (s0 : mst) {struct n} : option mst :=
            match n with
            | 0 => k s0
            | S n' =>
                if g then
                  match m ic r1 s0 (fun s' => if pos s' =? pos s0 then None else loop n' s') with
                  | Some x => Some x
                  | None => k s0
                  end
                else
                  match k s0 with
                  | Some x => Some x
                  | None => m ic r1 s0 (fun s' => if pos s' =? pos s0 then None else loop n' s')
                  end
            end) n s0 = Some x ->
         exists s' c, k s' = Some x /\ caps s' = c ++ caps s /\ caps_from (grp (Star g r1)) c).
    { intros Hc. exact (Hc (S (List.length (rest s))) s (or_introl eq_refl) H). }
    clear H. intros n. induction n as [|n IHn]; intros s0 Hs0 H.
    + exists s0. destruct Hs0 as [Hs0|[c0 [Hs0 Hg]]]; [exists []|exists c0];
        repeat split; auto; constructor.
    + assert (Hs0' : exists c0, caps s0 = c0 ++ caps s /\ caps_from (grp r1) c0)
        by (destruct Hs0 as [Hs0|Hs0]; [exists []; split; [exact Hs0|constructor]|exact Hs0]).
      clear Hs0. destruct Hs0' as [c0 [Hc0 Hg0]].
      assert (Hbody : m ic r1 s0 (fun s' => if pos s' =? pos s0 then None else
             (fix loop (n : nat) (s0 : mst) {struct n} : option mst :=
            match n with
            | 0 => k s0
            | S n' =>
                if g then
                  match m ic r1 s0 (fun s' => if pos s' =? pos s0 then None else loop n' s') with
                  | Some x => Some x
                  | None => k s0
                  end
                else
                  match k s0 with
                  | Some x => Some x
                  | None => m ic r1 s0 (fun s' => if pos s' =? pos s0 then None else loop n' s')
                  end
            end) n s') = Some x ->
         exists s' c, k s' = Some x /\ caps s' = c ++ caps s /\ caps_from (grp (Star g r1)) c).
      { intros Hm. apply IH1 in Hm as [s1 [c1 [H1 [H2 H3]]]].
        destruct (pos s1 =? pos s0); [discriminate|].
        apply (IHn s1); [|exact H1]. right. exists (c1 ++ c0).
        split; [rewrite H2, Hc0, app_assoc; reflexivity|apply caps_from_app; assumption]. }
      assert (Hk : k s0 = Some x ->
         exists s' c, k s' = Some x /\ caps s' = c ++ caps s /\ caps_from (grp (Star g r1)) c)
        by (intros Hk; exists s0, c0; auto).
      destruct g.
      * destruct (m ic r1 s0 _) as [y|] eqn:E; [injection H as ->; apply Hbody; reflexivity|apply Hk, H].
      * destruct (k s0) as [y|] eqn:E; [injection H as ->; apply Hk; reflexivity|apply Hbody, H].
  - apply IH1 in H as [s1 [c1 [H1 [H2 H3]]]].
    eexists; exists ((n, (pos s, pos s1)) :: c1). repeat split; [exact H1| |].
    + cbn [caps]. rewrite H2. reflexivity.
    + constructor; [left; reflexivity|]. eapply caps_from_incl; [|eassumption].
      intros y Hy; right; exact Hy.
  - destruct (m ic r1 s _); [|discriminate]. exists s, []. repeat split; auto. constructor.
  - destruct (at_boundary s); [|discriminate]. exists s, []. repeat split; auto. constructor.
  - destruct (pos s =? 0); [|discriminate]. exists s, []. repeat split; auto. constructor.
  - destruct (rest s) as [|c [|c' cs]]; [| destruct (Ascii.eqb c Py.nl_char)|]; try discriminate;
      exists s, []; repeat split; auto; constructor.
Qed.
End CapsFacts.

Module DateFacts.
Import Re CapsFacts.

Lemma alts_caps : forall ic rs s k x, m ic (alts rs) s k = Some x ->
  Exists (fun r => exists s' c, k s' = Some x /\ caps s' = c ++ caps s /\ caps_from (grp r) c) rs.
Proof.
  intros ic rs s k x. induction rs as [|r rs IH]; intros H.
  - simpl in H. destruct (rest s); [discriminate|]. unfold chr_ok in H. destruct ic; discriminate.
  - destruct rs as [|r' rs].
    + constructor. exact (m_caps _ _ _ _ _ H).
    + change (alts (r :: r' :: rs)) with (Alt r (alts (r' :: rs))) in H. cbn [m] in H.
      destruct (m ic r s k) eqn:E.
      * injection H as ->. constructor. exact (m_caps _ _ _ _ _ E).
      * apply Exists_cons_tl, IH, H.
Qed.

Lemma find_caps_none : forall G c n, caps_from G c -> ~ In n G ->
  find (fun p => fst p =? n) c = None.
Proof.
  intros G c n Hc Hn. induction Hc as [|p c Hp Hc IH]; [reflexivity|].
  simpl. destruct (fst p =? n) eqn:E; [|exact IH].
  apply Nat.eqb_eq in E. subst n. contradiction.
Qed.

Lemma date_match_has_none : forall l a x,
  match_at true date_pattern l a = Some x -> In None (map (group l (a, x)) [1; 2; 3]).
Proof.
  intros l a x H. unfold match_at, date_pattern in H. apply alts_caps in H.
  unfold group. cbn [snd].
  apply Exists_cons in H as [Hr|H1].
  - destruct Hr as [s' [c [Hk [Hc Hg]]]]. injection Hk as ->. cbn [caps state_at] in Hc.
    rewrite app_nil_r in Hc. rewrite Hc.
    right; right; left. rewrite (find_caps_none _ _ 3 Hg); [reflexivity|].
    vm_compute. intuition discriminate.
  - apply Exists_cons in H1 as [Hr|H2].
    + destruct Hr as [s' [c [Hk [Hc Hg]]]]. injection Hk as ->. cbn [caps state_at] in Hc.
      rewrite app_nil_r in Hc. rewrite Hc.
      left. rewrite (find_caps_none _ _ 1 Hg); [reflexivity|]. vm_compute. intuition discriminate.
    + apply Exists_cons in H2 as [Hr|H3]; [|inversion H3].
      destruct Hr as [s' [c [Hk [Hc Hg]]]]. injection Hk as ->. cbn [caps state_at] in Hc.
      rewrite app_nil_r in Hc. rewrite Hc.
      left. rewrite (find_caps_none _ _ 1 Hg); [reflexivity|]. vm_compute. intuition discriminate.
Qed.

Lemma experience_entries_raise : forall es,
  (exists e, experience_entries es = Raise e) <-> In None es.
Proof.
  induction es as [|[entry|] es IH]; simpl.
  - split; [intros [e H]; discriminate|intros []].
  - destruct (_ || _).
    + rewrite IH. split; [intros H; right; exact H|intros [H|H]; [discriminate|exact H]].
    + destruct (experience_entries es) as [recs|e'] eqn:E; simpl.
      * split; [intros [e H]; destruct (experience_entry entry); discriminate|].
        intros [H|H]; [discriminate|]. apply IH in H as [e H]. discriminate.
      * split; [intros _; right; apply IH; exists e'; reflexivity|intros _; exists e'; reflexivity].
  - split; [intros _; left; reflexivity|intros _; exists AttributeError; reflexivity].
Qed.
End DateFacts.

Lemma experience_raise_iff : forall text,
  extract_experience text = Raise AttributeError
  <-> section_of Experience text <> EmptyString
      /\ Re.search true date_pattern (section_of Experience text) <> None.
Proof.
  intros text. unfold extract_experience.
  set (sec := section_of Experience text).
  destruct (String.eqb sec EmptyString) eqn:Es.
  - apply String.eqb_eq in Es. split; [discriminate|intros [H _]; contradiction].
  - apply String.eqb_neq in Es.
    assert (Hr : experience_entries (experience_split sec) = Raise AttributeError
                 <-> In None (experience_split sec)).
    { rewrite <- DateFacts.experience_entries_raise.
      split; [intros H; exists AttributeError; exact H|intros [[] H]; exact H]. }
    rewrite Hr. unfold experience_split.
    set (fb := Re.split false year_line_split_pattern sec).
    unfold Re.split, Re.finditer.
    replace (Re.ngroups date_pattern) with 3 by reflexivity.
    set (l := list_ascii_of_string sec).
    cbn [Re.finditer_from]. replace (List.length l <? 0) with false by reflexivity.
    change (Re.search_from true date_pattern l 0) with (Re.search true date_pattern sec).
    destruct (Re.search true date_pattern sec) as [[a x]|] eqn:Ed.
    + assert (Hin : In None (map (Re.group l (a, x)) [1; 2; 3])).
      { apply (DateFacts.date_match_has_none l a x).
        unfold Re.search, Re.search_from in Ed. apply SplitFacts.scan_inv in Ed as [_ Ed].
        exact Ed. }
      cbn [Re.split_pieces fst snd]. change (seq 1 3) with [1; 2; 3].
      split; [intros _; split; [exact Es|discriminate]|intros _].
      destruct (List.length _ <=? 1) eqn:El; [simpl in El; discriminate|].
      right. apply in_or_app. left. exact Hin.
    + cbn [Re.split_pieces List.length Nat.leb].
      destruct (SplitFacts.year_line_split_lossless sec) as [ps [Hps _]].
      unfold fb. rewrite Hps. split; [|intros [_ H]; contradiction H; reflexivity].
      intros H. apply in_map_iff in H as [p [Hp _]]. discriminate.
Qed.

Module EntryFacts.
Lemma education_entries_ok : forall ps, exists recs, education_entries (map Some ps) = Ok recs.
Proof.
  induction ps as [|p ps [recs IH]]; simpl; [eexists; reflexivity|].
  destruct (_ <? 10); [exists recs; exact IH|]. rewrite IH. simpl.
  destruct (education_entry p); eexists; reflexivity.
Qed.

Lemma project_entries_ok : forall ps, exists recs, project_entries (map Some ps) = Ok recs.
Proof.
  induction ps as [|p ps [recs IH]]; simpl; [eexists; reflexivity|].
  destruct (_ || _); [exists recs; exact IH|]. rewrite IH. simpl.
  destruct (project_entry _); eexists; reflexivity.
Qed.

Lemma education_entries_from : forall es recs r,
  education_entries es = Ok recs -> In r recs ->
  exists e, In (Some e) es /\ 10 <= String.length (Py.strip e) /\ education_entry e = Some r.
Proof.
  induction es as [|[e|] es IH]; intros recs r H Hr; cbn [education_entries experience_entries project_entries] in H.
  - injection H as <-. destruct Hr.
  - destruct (String.length (Py.strip e) <? 10) eqn:El.
    + destruct (IH recs r H Hr) as [e' [H1 H2]]. exists e'. split; [right; exact H1|exact H2].
    + apply Nat.ltb_ge in El.
      destruct (education_entries es) as [recs'|x] eqn:E; simpl in H; [|discriminate].
      destruct (education_entry e) as [r'|] eqn:Ee; injection H as <-.
      * destruct Hr as [<-|Hr]; [exists e; split; [left; reflexivity|auto]|].
        destruct (IH recs' r eq_refl Hr) as [e' [H1 H2]]. exists e'. split; [right; exact H1|exact H2].
      * destruct (IH recs' r eq_refl Hr) as [e' [H1 H2]]. exists e'. split; [right; exact H1|exact H2].
  - discriminate.
Qed.

Lemma experience_entries_from : forall es recs r,
  experience_entries es = Ok recs -> In r recs ->
  exists e, In (Some e) es /\ 15 <= String.length (Py.strip e)
    /\ ~ In (Py.lower (Py.strip e)) experience_headers /\ experience_entry e = Some r.
Proof.
  induction es as [|[e|] es IH]; intros recs r H Hr; cbn [education_entries experience_entries project_entries] in H.
  - injection H as <-. destruct Hr.
  - destruct ((String.length (Py.strip e) <? 15)
              || existsb (String.eqb (Py.lower (Py.strip e))) experience_headers) eqn:El.
    + destruct (IH recs r H Hr) as [e' [H1 H2]]. exists e'. split; [right; exact H1|exact H2].
    + apply orb_false_iff in El as [El Eh]. apply Nat.ltb_ge in El.
      assert (Hh : ~ In (Py.lower (Py.strip e)) experience_headers).
      { intros Hin. assert (existsb (String.eqb (Py.lower (Py.strip e))) experience_headers = true)
          by (apply existsb_exists; exists (Py.lower (Py.strip e)); split;
              [exact Hin|apply String.eqb_refl]). congruence. }
      destruct (experience_entries es) as [recs'|x] eqn:E; simpl in H; [|discriminate].
      destruct (experience_entry e) as [r'|] eqn:Ee; injection H as <-.
      * destruct Hr as [<-|Hr]; [exists e; split; [left; reflexivity|auto]|].
        destruct (IH recs' r eq_refl Hr) as [e' [H1 H2]]. exists e'. split; [right; exact H1|exact H2].
      * destruct (IH recs' r eq_refl Hr) as [e' [H1 H2]]. exists e'. split; [right; exact H1|exact H2].
  - discriminate.
Qed.

Lemma project_entries_from : forall es recs r,
  project_entries es = Ok recs -> In r recs ->
  exists e, In (Some e) es /\ 15 <= String.length (Py.strip e)
    /\ ~ In (Py.lower (Py.strip e)) project_indicators /\ project_entry (Py.strip e) = Some r.
Proof.
  induction es as [|[e|] es IH]; intros recs r H Hr; cbn [education_entries experience_entries project_entries] in H.
  - injection H as <-. destruct Hr.
  - destruct ((String.length (Py.strip e) <? 15)
              || existsb (String.eqb (Py.lower (Py.strip e))) project_indicators) eqn:El.
    + destruct (IH recs r H Hr) as [e' [H1 H2]]. exists e'. split; [right; exact H1|exact H2].
    + apply orb_false_iff in El as [El Eh]. apply Nat.ltb_ge in El.
      assert (Hh : ~ In (Py.lower (Py.strip e)) project_indicators).
      { intros Hin. assert (existsb (String.eqb (Py.lower (Py.strip e))) project_indicators = true)
          by (apply existsb_exists; exists (Py.lower (Py.strip e)); split;
              [exact Hin|apply String.eqb_refl]). congruence. }
      destruct (project_entries es) as [recs'|x] eqn:E; simpl in H; [|discriminate].
      destruct (project_entry (Py.strip e)) as [r'|] eqn:Ee; injection H as <-.
      * destruct Hr as [<-|Hr]; [exists e; split; [left; reflexivity|auto]|].
        destruct (IH recs' r eq_refl Hr) as [e' [H1 H2]]. exists e'. split; [right; exact H1|exact H2].
      * destruct (IH recs' r eq_refl Hr) as [e' [H1 H2]]. exists e'. split; [right; exact H1|exact H2].
  - discriminate.
Qed.
End EntryFacts.

Lemma education_ok : forall text, exists recs, extract_education text = Ok recs.
Proof.
  intros text. unfold extract_education. destruct (String.eqb _ EmptyString); [eexists; reflexivity|].
  destruct (SplitFacts.education_split_lossless (section_of Education text)) as [ps [-> _]].
  apply EntryFacts.education_entries_ok.
Qed.

Lemma projects_ok : forall text, exists recs, extract_projects text = Ok recs.
Proof.
  intros text. unfold extract_projects. destruct (String.eqb _ EmptyString); [eexists; reflexivity|].
  destruct (SplitFacts.project_split_lossless (section_of Projects text)) as [ps [-> _]].
  apply EntryFacts.project_entries_ok.
Qed.

(** [extract_education] and [extract_projects] never raise. *)
Theorem education_projects_never_raise : forall text,
  (exists recs, extract_education text = Ok recs)
  /\ (exists recs, extract_projects text = Ok recs).
Proof. intros text. split; [apply education_ok|apply projects_ok]. Qed.

(** Every education record comes from a piece of the split education
    section whose stripped length is at least 10. *)
Theorem education_record_sources : forall text recs r,
  extract_education text = Ok recs -> In r recs ->
  exists e, In (Some e) (Re.split false education_split_pattern (section_of Education text))
    /\ 10 <= String.length (Py.strip e) /\ education_entry e = Some r.
Proof.
  intros text recs r H Hr. unfold extract_education in H.
  destruct (String.eqb _ EmptyString); [injection H as <-; destruct Hr|].
  exact (EntryFacts.education_entries_from _ _ _ H Hr).
Qed.

Lemma education_record_sources_witness :
  exists e, In (Some e) (Re.split false education_split_pattern (section_of Education jane_smith_text))
    /\ 10 <= String.length (Py.strip e)
    /\ education_entry e = Some (MkEdu "Degree not specified"
         ("Education" ++ Py.nl ++ "BS Computer Science" ++ Py.nl ++ "State University")
         "Year not specified").
Proof.
  apply (education_record_sources jane_smith_text
           [MkEdu "Degree not specified"
              ("Education" ++ Py.nl ++ "BS Computer Science" ++ Py.nl ++ "State University")
              "Year not specified"]);
    [vm_compute; reflexivity | left; reflexivity].
Defined.

(** Every experience record comes from a piece of the split experience
    section whose stripped length is at least 15 and which is not one of the
    experience headers. *)
Theorem experience_record_sources : forall text recs r,
  extract_experience text = Ok recs -> In r recs ->
  exists e, In (Some e) (experience_split (section_of Experience text))
    /\ 15 <= String.length (Py.strip e)
    /\ ~ In (Py.lower (Py.strip e)) experience_headers /\ experience_entry e = Some r.
Proof.
  intros text recs r H Hr. unfold extract_experience in H.
  destruct (String.eqb _ EmptyString); [injection H as <-; destruct Hr|].
  exact (EntryFacts.experience_entries_from _ _ _ H Hr).
Qed.

Lemma experience_record_sources_witness :
  exists e, In (Some e) (experience_split (section_of Experience two_sections_text))
    /\ 15 <= String.length (Py.strip e)
    /\ ~ In (Py.lower (Py.strip e)) experience_headers
    /\ experience_entry e = Some (MkExp ("Experience" ++ Py.nl ++ "Software Engineer")
                                        "Acme Corp" "Duration not specified").
Proof.
  apply (experience_record_sources two_sections_text
           [MkExp ("Experience" ++ Py.nl ++ "Software Engineer") "Acme Corp"
                  "Duration not specified"]);
    [vm_compute; reflexivity | left; reflexivity].
Defined.

Lemma project_sources : forall text recs r,
  extract_projects text = Ok recs -> In r recs ->
  exists e, In (Some e) (Re.split false project_split_pattern (section_of Projects text))
    /\ 15 <= String.length (Py.strip e)
    /\ ~ In (Py.lower (Py.strip e)) project_indicators
    /\ project_entry (Py.strip e) = Some r.
Proof.
  intros text recs r H Hr. unfold extract_projects in H.
  destruct (String.eqb _ EmptyString); [injection H as <-; destruct Hr|].
  exact (EntryFacts.project_entries_from _ _ _ H Hr).
Qed.

(** Every project record comes from a piece of the split projects section
    whose stripped length is at least 15 and which is not a projects header;
    the record is built from the stripped piece. *)
Theorem project_record_sources : forall text recs r,
  extract_projects text = Ok recs -> In r recs ->
  exists e, In (Some e) (Re.split false project_split_pattern (section_of Projects text))
    /\ 15 <= String.length (Py.strip e)
    /\ ~ In (Py.lower (Py.strip e)) project_indicators
    /\ project_entry (Py.strip e) = Some r.
Proof. exact project_sources. Qed.

Lemma project_record_sources_witness :
  exists e, In (Some e) (Re.split false project_split_pattern (section_of Projects projects_text))
    /\ 15 <= String.length (Py.strip e)
    /\ ~ In (Py.lower (Py.strip e)) project_indicators
    /\ project_entry (Py.strip e)
       = Some (MkProj "Resume Parser: a FastAPI service" "Extracts fields from resumes").
Proof.
  apply (project_record_sources projects_text
           [MkProj "Resume Parser: a FastAPI service" "Extracts fields from resumes"]);
    [vm_compute; reflexivity | left; reflexivity].
Defined.

Module TextFacts.
Lemma nodupb_NoDup : forall l, nodupb l = true -> NoDup l.
Proof.
  induction l as [|x l IH]; simpl; intros H; [constructor|].
  apply andb_prop in H as [H1 H2]. constructor; [|apply IH, H2].
  intros Hin. apply negb_true_iff in H1.
  assert (existsb (String.eqb x) l = true)
    by (apply existsb_exists; exists x; split; [exact Hin|apply String.eqb_refl]).
  congruence.
Qed.

Lemma lower_char_idem : forall c, Py.lower_char (Py.lower_char c) = Py.lower_char c.
Proof. intros [[] [] [] [] [] [] [] []]; reflexivity. Qed.

Lemma lower_idem : forall s, Py.lower (Py.lower s) = Py.lower s.
Proof. induction s as [|c s IH]; simpl; [reflexivity|]. rewrite lower_char_idem, IH. reflexivity. Qed.

Lemma lower_app : forall a b, Py.lower (a ++ b) = (Py.lower a ++ Py.lower b)%string.
Proof. induction a as [|c a IH]; intros b; simpl; [reflexivity|]. rewrite IH. reflexivity. Qed.

Lemma append_empty_r : forall s, (s ++ EmptyString)%string = s.
Proof. induction s as [|c s IH]; simpl; [reflexivity|]. rewrite IH. reflexivity. Qed.

Lemma append_assoc : forall a b c, ((a ++ b) ++ c)%string = (a ++ b ++ c)%string.
Proof. induction a as [|x a IH]; intros b c; simpl; [reflexivity|]. rewrite IH. reflexivity. Qed.

Lemma rev_string_app : forall a b,
  Py.rev_string (a ++ b) = (Py.rev_string b ++ Py.rev_string a)%string.
Proof.
  induction a as [|c a IH]; intros b; simpl.
  - rewrite append_empty_r. reflexivity.
  - rewrite IH, append_assoc. reflexivity.
Qed.

Lemma rev_string_involutive : forall s, Py.rev_string (Py.rev_string s) = s.
Proof.
  induction s as [|c s IH]; simpl; [reflexivity|].
  rewrite rev_string_app, IH. reflexivity.
Qed.

Lemma lstrip_suffix : forall p s, exists a, s = (a ++ Py.lstrip_by p s)%string.
Proof.
  intros p s. induction s as [|c s [a IH]]; simpl; [exists EmptyString; reflexivity|].
  destruct (p c); [exists (String c a); simpl; rewrite <- IH; reflexivity|].
  exists EmptyString. reflexivity.
Qed.

Lemma strip_infix : forall p s, exists a b, s = (a ++ Py.strip_by p s ++ b)%string.
Proof.
  intros p s. unfold Py.strip_by.
  destruct (lstrip_suffix p s) as [a Ha].
  destruct (lstrip_suffix p (Py.rev_string (Py.lstrip_by p s))) as [c Hc].
  exists a, (Py.rev_string c).
  rewrite Ha at 1. f_equal.
  rewrite <- (rev_string_involutive (Py.lstrip_by p s)) at 1.
  rewrite Hc at 1. apply rev_string_app.
Qed.

Lemma length_app : forall a b, String.length (a ++ b) = String.length a + String.length b.
Proof. induction a as [|c a IH]; intros b; simpl; [reflexivity|]. rewrite IH. reflexivity. Qed.

Lemma prefix_app : forall x m b, String.prefix x m = true -> String.prefix x (m ++ b) = true.
Proof.
  induction x as [|c x IH]; intros [|d m] b H; simpl in *; try discriminate.
  - destruct b; reflexivity.
  - destruct b; reflexivity.
  - destruct (ascii_dec c d); [apply IH, H|discriminate].
Qed.

Lemma contains_app_r : forall x m b, Py.contains x m = true -> Py.contains x (m ++ b) = true.
Proof.
  intros x m b. induction m as [|c m IH]; intros H.
  - simpl in H. rewrite orb_false_r in H. simpl.
    destruct x; [destruct b; reflexivity|discriminate].
  - simpl in *. apply orb_true_iff in H as [H|H].
    + apply orb_true_iff. left. apply (prefix_app x (String c m) b H).
    + rewrite IH by exact H. apply orb_true_r.
Qed.

Lemma contains_app_l : forall x a m, Py.contains x m = true -> Py.contains x (a ++ m) = true.
Proof.
  intros x a m H. induction a as [|c a IH]; simpl; [exact H|].
  rewrite IH. apply orb_true_r.
Qed.

Lemma any_in_infix : forall xs a m b,
  Py.any_in xs (a ++ m ++ b) = false -> Py.any_in xs m = false.
Proof.
  intros xs a m b H. unfold Py.any_in in *.
  destruct (existsb (fun x => Py.contains x m) xs) eqn:E; [|reflexivity].
  apply existsb_exists in E as [x [Hx Hc]].
  assert (existsb (fun x => Py.contains x (a ++ m ++ b)) xs = true).
  { apply existsb_exists. exists x. split; [exact Hx|].
    apply contains_app_l, contains_app_r, Hc. }
  congruence.
Qed.
End TextFacts.

(** The skills list has no duplicates and only vocabulary entries. *)
Theorem skills_distinct_from_vocabulary : forall text,
  NoDup (extract_skills text) /\ incl (extract_skills text) skill_keywords.
Proof.
  intros text. unfold extract_skills. split.
  - apply NoDup_filter, TextFacts.nodupb_NoDup. vm_compute. reflexivity.
  - intros x Hx. apply filter_In in Hx as [Hx _]. exact Hx.
Qed.

(** [extract_skills] gives the same list for a text and its lowercase. *)
Theorem skills_case_insensitive : forall text,
  extract_skills (Py.lower text) = extract_skills text.
Proof. intros text. unfold extract_skills. rewrite TextFacts.lower_idem. reflexivity. Qed.

(** A returned name is shorter than 40 characters and its lowercase form
    contains none of the blacklisted substrings. *)
Theorem extracted_name_bounds : forall text n,
  extract_name text = Some n ->
  String.length n < 40 /\ Py.any_in name_blacklist (Py.lower n) = false.
Proof.
  intros text n H.
  apply (proj1 (proj1 (first_name_line_spec _ n))) in H
    as [pre [line [post [_ [_ [Hok ->]]]]]].
  unfold name_ok_untrimmed in Hok.
  apply andb_prop in Hok as [Hok Hb]. apply andb_prop in Hok as [_ Hl].
  apply Nat.ltb_lt in Hl. apply negb_true_iff in Hb.
  destruct (TextFacts.strip_infix Py.is_space line) as [a [b Hs]].
  fold (Py.strip line) in Hs. rewrite Hs in Hl, Hb.
  rewrite !TextFacts.length_app in Hl. rewrite !TextFacts.lower_app in Hb.
  split; [lia|]. exact (TextFacts.any_in_infix _ _ _ _ Hb).
Qed.

Lemma extracted_name_bounds_witness :
  String.length "Jane Smith" < 40 /\ Py.any_in name_blacklist (Py.lower "Jane Smith") = false.
Proof. apply (extracted_name_bounds jane_smith_text). vm_compute. reflexivity. Defined.


Lemma pipeline_raise_iff : forall text,
  extract text = Raise AttributeError
  <-> section_of Experience text <> EmptyString
      /\ Re.search true date_pattern (section_of Experience text) <> None.
Proof.
  intros text. rewrite <- experience_raise_iff.
  unfold extract.
  destruct (education_ok text) as [e He]. rewrite He. simpl.
  destruct (projects_ok text) as [p Hp].
  destruct (extract_experience text) as [x|[]]; simpl; [|split; reflexivity].
  rewrite Hp. simpl. split; discriminate.
Qed.

(** [extract_experience], and with it the whole extraction core, raises
    [AttributeError] exactly when the experience section is non-empty and
    contains a match of the capturing [date_pattern]. *)
Theorem raises_iff_date_range : forall text,
  (extract_experience text = Raise AttributeError
   <-> section_of Experience text <> EmptyString
       /\ Re.search true date_pattern (section_of Experience text) <> None)
  /\ (extract text = Raise AttributeError
      <-> section_of Experience text <> EmptyString
          /\ Re.search true date_pattern (section_of Experience text) <> None).
Proof. intros text. split; [apply experience_raise_iff|apply pipeline_raise_iff]. Qed.

(** A supported document whose extracted text has at least 10 characters
    and whose experience section contains a match of [date_pattern] gets the
    status 500. *)
Theorem parse_resume_date_range_500 : forall pdf docx b ct text,
  select_text pdf docx b ct = Some text -> 10 <= String.length text ->
  Re.search true date_pattern (section_of Experience text) <> None ->
  parse_resume pdf docx (Downloaded b ct) = HttpError 500.
Proof.
  intros pdf docx b ct text Hs Hl Hd. unfold parse_resume, parse_resume_body. rewrite Hs.
  assert (Ht : String.eqb text EmptyString = false).
  { destruct text; [simpl in Hl; lia|reflexivity]. }
  apply Nat.ltb_ge in Hl. rewrite Ht, Hl. simpl.
  assert (Hsec : section_of Experience text <> EmptyString).
  { intros He. rewrite He in Hd. apply Hd. reflexivity. }
  rewrite (proj2 (pipeline_raise_iff text) (conj Hsec Hd)). reflexivity.
Qed.

Lemma parse_resume_date_range_500_witness :
  parse_resume (fun _ => date_range_text) (fun _ => EmptyString) (Downloaded pdf_magic EmptyString)
  = HttpError 500.
Proof.
  apply (parse_resume_date_range_500 _ _ pdf_magic EmptyString date_range_text);
    [reflexivity | vm_compute; lia | vm_compute; discriminate].
Defined.


Lemma project_entry_named : forall e r, project_entry e = Some r -> proj_name r <> EmptyString.
Proof.
  intros e r. unfold project_entry.
  destruct (String.eqb _ EmptyString) eqn:E; [discriminate|].
  intros H. injection H as <-. simpl. apply String.eqb_neq, E.
Qed.

(** Every project record has a non-empty name. *)
Theorem project_names_nonempty : forall text recs,
  extract_projects text = Ok recs -> Forall (fun r => proj_name r <> EmptyString) recs.
Proof.
  intros text recs H. apply Forall_forall. intros r Hr.
  destruct (project_sources text recs r H Hr) as [e [_ [_ [_ He]]]].
  exact (project_entry_named _ _ He).
Qed.

Lemma project_names_nonempty_witness :
  Forall (fun r => proj_name r <> EmptyString)
    [MkProj "Resume Parser: a FastAPI service" "Extracts fields from resumes"].
Proof. apply (project_names_nonempty projects_text). vm_compute. reflexivity. Defined.


(** When the magic bytes identify PDF or DOCX, the Content-Type header does
    not influence [parse_resume]. *)
Theorem content_type_only_when_no_magic : forall pdf docx b ct1 ct2,
  is_pdf b || is_docx b = true ->
  parse_resume pdf docx (Downloaded b ct1) = parse_resume pdf docx (Downloaded b ct2).
Proof.
  intros pdf docx b ct1 ct2 H. unfold parse_resume, parse_resume_body, select_text.
  destruct (is_pdf b); [reflexivity|]. simpl in H. rewrite H. reflexivity.
Qed.

Lemma content_type_only_when_no_magic_witness :
  parse_resume (fun _ => date_range_text) (fun _ => EmptyString) (Downloaded pdf_magic "text/plain")
  = parse_resume (fun _ => date_range_text) (fun _ => EmptyString)
      (Downloaded pdf_magic "application/msword").
Proof. apply content_type_only_when_no_magic. vm_compute. reflexivity. Defined.


(** [parse_resume] reads the Content-Type header case-insensitively. *)
Theorem content_type_case_insensitive : forall pdf docx b ct,
  parse_resume pdf docx (Downloaded b (Py.lower ct)) = parse_resume pdf docx (Downloaded b ct).
Proof.
  intros pdf docx b ct. unfold parse_resume, parse_resume_body, select_text.
  rewrite TextFacts.lower_idem. reflexivity.
Qed.

Module SpaceFacts.
Lemma split_spaces : forall k t,
  Py.split_char Py.nl_char (spaces k ++ String Py.nl_char t) = spaces k :: Py.split_char Py.nl_char t.
Proof.
  induction k as [|k IH]; intros t; simpl; [reflexivity|].
  rewrite IH. reflexivity.
Qed.

Lemma lower_spaces : forall k, Py.lower (spaces k) = spaces k.
Proof. induction k as [|k IH]; simpl; [reflexivity|]. rewrite IH. reflexivity. Qed.

Lemma length_spaces : forall k, String.length (spaces k) = k.
Proof. induction k as [|k IH]; simpl; [reflexivity|]. rewrite IH. reflexivity. Qed.

Lemma contains_spaces : forall c x k, c <> " "%char -> Py.contains (String c x) (spaces k) = false.
Proof.
  intros c x k Hc. induction k as [|k IH]; simpl; [reflexivity|].
  rewrite IH. destruct (ascii_dec c " "); [contradiction|reflexivity].
Qed.

Lemma strip_spaces : forall k, Py.strip (spaces k) = EmptyString.
Proof.
  intros k. apply StripFacts.strip_by_empty.
  induction k as [|k IH]; simpl; [reflexivity|]. exact IH.
Qed.

Lemma split_spaces_only : forall k,
  Py.split_char Py.nl_char (spaces k) = [spaces k].
Proof.
  induction k as [|k IH]; simpl; [reflexivity|].
  rewrite IH. reflexivity.
Qed.

Lemma first_spaces_line : forall k ls, 5 < k < 40 ->
  first_name_line (spaces k :: ls) = Some EmptyString.
Proof.
  intros k ls Hk. cbn [first_name_line].
  rewrite length_spaces, lower_spaces.
  replace (5 <? k) with true by (symmetry; apply Nat.ltb_lt; lia).
  replace (k <? 40) with true by (symmetry; apply Nat.ltb_lt; lia).
  unfold Py.any_in, name_blacklist. cbn [existsb].
  rewrite !contains_spaces by discriminate.
  simpl. rewrite strip_spaces. reflexivity.
Qed.
End SpaceFacts.

(** A first line of 6 to 39 spaces is returned as the name, the empty
    string, whether it is the whole text or is followed by a newline and
    further lines. *)
Theorem whitespace_line_gives_empty_name : forall k rest,
  5 < k < 40 ->
  extract_name (spaces k) = Some EmptyString
  /\ extract_name (spaces k ++ Py.nl ++ rest) = Some EmptyString.
Proof.
  intros k rest Hk. unfold extract_name, Py.split_lines. split.
  - rewrite SpaceFacts.split_spaces_only. cbn [firstn].
    apply SpaceFacts.first_spaces_line; exact Hk.
  - change (Py.nl ++ rest)%string with (String Py.nl_char rest).
    rewrite SpaceFacts.split_spaces. cbn [firstn].
    apply SpaceFacts.first_spaces_line; exact Hk.
Qed.

Lemma whitespace_line_gives_empty_name_witness :
  extract_name (spaces 6) = Some EmptyString
  /\ extract_name (spaces 6 ++ Py.nl ++ "Jane Smith") = Some EmptyString.
Proof. apply (whitespace_line_gives_empty_name 6 "Jane Smith"). lia. Defined.

Module PosFacts.
Import Re.

Lemma m_pos : forall (l : list ascii) ic r s k x,
  rest s = skipn (pos s) l -> m ic r s k = Some x ->
  exists s', k s' = Some x /\ pos s <= pos s' /\ rest s' = skipn (pos s') l.
Proof.
  intros l ic r. induction r as [| p | r1 IH1 r2 IH2 | r1 IH1 r2 IH2 | g r1 IH1 | n r1 IH1
                               | r1 IH1 | | | ]; intros s k x Hs H; cbn [m] in H.
  - exists s. auto.
  - destruct (rest s) as [|c cs] eqn:E; [discriminate|]. destruct (chr_ok ic p c); [|discriminate].
    eexists; split; [exact H|]. cbn [pos rest]. split; [lia|].
    symmetry in Hs. apply ReFacts.skipn_cons_inv in Hs as [_ Hs]. symmetry; exact Hs.
  - apply IH1 in H as [s1 [H1 [Hp1 Hr1]]]; [|exact Hs].
    apply IH2 in H1 as [s2 [H2 [Hp2 Hr2]]]; [|exact Hr1].
    exists s2. split; [exact H2|split; [lia|exact Hr2]].
  - destruct (m ic r1 s k) as [y|] eqn:E.
    + injection H as ->. apply IH1 in E; assumption.
    + apply IH2 in H; assumption.
  - cut (forall n s0, pos s <= pos s0 -> rest s0 = skipn (pos s0) l ->
         (fix loop (n : nat) (s0 : mst) {struct n} : option mst :=
            match n with
            | 0 => k s0
            | S n' =>
                if g then
                  match m ic r1 s0 (fun s' => if pos s' =? pos s0 then None else loop n' s') with
                  | Some x => Some x
                  | None => k s0
                  end
                else
                  match k s0 with
                  | Some x => Some x
                  | None => m ic r1 s0 (fun s' => if pos s' =? pos s0 then None else loop n' s')
                  end
            end) n s0 = Some x ->
         exists s', k s' = Some x /\ pos s <= pos s' /\ rest s' = skipn (pos s') l).
    { intros Hc. exact (Hc (S (List.length (rest s))) s (le_n _) Hs H). }
    clear H. intros n. induction n as [|n IHn]; intros s0 Hp0 Hs0 H.
    + exists s0. auto.
    + assert (Hbody : m ic r1 s0 (fun s' => if pos s' =? pos s0 then None else
             (fix loop (n : nat) (s0 : mst) {struct n} : option mst :=
            match n with
            | 0 => k s0
            | S n' =>
                if g then
                  match m ic r1 s0 (fun s' => if pos s' =? pos s0 then None else loop n' s') with
                  | Some x => Some x
                  | None => k s0
                  end
                else
                  match k s0 with
                  | Some x => Some x
                  | None => m ic r1 s0 (fun s' => if pos s' =? pos s0 then None else loop n' s')
                  end
            end) n s') = Some x ->
         exists s', k s' = Some x /\ pos s <= pos s' /\ rest s' = skipn (pos s') l).
      { intros Hm. apply IH1 in Hm as [s1 [H1 [H2 H3]]]; [|exact Hs0].
        destruct (pos s1 =? pos s0); [discriminate|].
        apply (IHn s1); [lia|exact H3|exact H1]. }
      assert (Hk : k s0 = Some x ->
         exists s', k s' = Some x /\ pos s <= pos s' /\ rest s' = skipn (pos s') l)
        by (intros Hk; exists s0; auto).
      destruct g.
      * destruct (m ic r1 s0 _) as [y|] eqn:E; [injection H as ->; apply Hbody; reflexivity|apply Hk, H].
      * destruct (k s0) as [y|] eqn:E; [injection H as ->; apply Hk; reflexivity|apply Hbody, H].
  - apply IH1 in H as [s1 [H1 [H2 H3]]]; [|exact Hs].
    eexists; split; [exact H1|]. cbn [pos rest]. auto.
  - destruct (m ic r1 s _); [|discriminate]. exists s. auto.
  - destruct (at_boundary s); [|discriminate]. exists s. auto.
  - destruct (pos s =? 0); [|discriminate]. exists s. auto.
  - exists s. split; [|split; [lia|exact Hs]].
    destruct (rest s) as [|c [|c' cs]]; [| destruct (Ascii.eqb c Py.nl_char)|]; try discriminate;
      exact H.
Qed.

Lemma m_seq : forall ic r1 r2 s k, m ic (Seq r1 r2) s k = m ic r1 s (fun s' => m ic r2 s' k).
Proof. reflexivity. Qed.

Lemma m_chr_state : forall ic c s k,
  m ic (chr c) s k
  = match rest s with
    | x :: xs => if chr_ok ic (Ascii.eqb c) x then k (MSt (Some x) xs (S (pos s)) (caps s)) else None
    | [] => None
    end.
Proof. reflexivity. Qed.

(** a match of [Seq r1 (Seq (chr c) r2)] at [a] reads [c] at some [j] with
    [a <= j < pos] of the final state *)
Lemma match_reads_char : forall r1 c r2 l a x,
  match_at false (Seq r1 (Seq (chr c) r2)) l a = Some x ->
  exists j, a <= j < pos x /\ nth_error l j = Some c.
Proof.
  intros r1 c r2 l a x H. unfold match_at in H. rewrite m_seq in H.
  apply (m_pos l) in H as [s1 [H1 [Hp1 Hr1]]]; [|reflexivity].
  rewrite m_seq, m_chr_state in H1. rewrite Hr1 in H1.
  destruct (skipn (pos s1) l) as [|d ds] eqn:E; [discriminate|].
  unfold chr_ok in H1. rewrite orb_false_r in H1.
  destruct (Ascii.eqb c d) eqn:Ec; [|discriminate]. apply Ascii.eqb_eq in Ec. subst d.
  apply ReFacts.skipn_cons_inv in E as [Ej Ers].
  apply (m_pos l) in H1 as [s2 [H2 [Hp2 _]]]; [|cbn [rest pos]; symmetry; exact Ers].
  injection H2 as ->. cbn [pos] in Hp2. cbn [pos state_at] in Hp1.
  exists (pos s1). split; [lia|exact Ej].
Qed.

Lemma contains_char : forall c s, In c (list_ascii_of_string s) -> Py.contains (String c EmptyString) s = true.
Proof.
  intros c s. induction s as [|d s IH]; simpl; [intros []|].
  intros [->|H].
  - destruct (ascii_dec c c); [destruct s; reflexivity|contradiction].
  - rewrite IH by exact H. apply orb_true_r.
Qed.

Lemma slice_contains : forall l a b j c, a <= j < b -> nth_error l j = Some c ->
  Py.contains (String c EmptyString) (slice l a b) = true.
Proof.
  intros l a b j c Hj Hc. apply contains_char. unfold slice.
  rewrite list_ascii_of_string_of_list_ascii.
  apply (nth_error_In _ (j - a)).
  rewrite nth_error_firstn. replace (j - a <? b - a) with true by (symmetry; apply Nat.ltb_lt; lia).
  rewrite nth_error_skipn. replace (a + (j - a)) with j by lia. exact Hc.
Qed.
End PosFacts.

(** A returned email contains "@". *)
Theorem extracted_email_has_at : forall text e,
  extract_email text = Some e -> Py.contains "@" e = true.
Proof.
  intros text e H. unfold extract_email, search_group0 in H.
  destruct (Re.search false email_pattern text) as [[a x]|] eqn:Es; [|discriminate].
  injection H as <-. unfold Re.search, Re.search_from in Es.
  apply SplitFacts.scan_inv in Es as [_ Es].
  apply PosFacts.match_reads_char in Es as [j [Hj Hc]].
  unfold Re.group0. cbn [fst snd].
  exact (PosFacts.slice_contains _ _ _ _ _ Hj Hc).
Qed.

Lemma extracted_email_has_at_witness :
  Py.contains "@" "jane.smith@mail.com" = true.
Proof.
  apply (extracted_email_has_at Docs.jane_smith_text). vm_compute. reflexivity.
Defined.

Module ExtractorFacts.
Lemma pages_text_spec : forall pages text,
  pages_text text pages
  = if existsb raises pages then None
    else Some (text ++ lines_text (page_texts pages))%string.
Proof.
  induction pages as [|[[e|]|] pages IH]; intros text; simpl.
  - f_equal. symmetry. apply TextFacts.append_empty_r.
  - destruct (String.eqb e EmptyString); [apply IH|]. rewrite IH.
    destruct (existsb raises pages); [reflexivity|]. f_equal. cbn [lines_text].
    rewrite !TextFacts.append_assoc. reflexivity.
  - apply IH.
  - reflexivity.
Qed.

Lemma split_no_newline : forall x y, no_newline x ->
  Py.split_char Py.nl_char (x ++ String Py.nl_char y) = x :: Py.split_char Py.nl_char y
  /\ Py.split_char Py.nl_char x = [x].
Proof.
  induction x as [|c x IH]; intros y Hx; simpl; [split; reflexivity|].
  destruct (Ascii.eqb c Py.nl_char) eqn:E.
  - apply Ascii.eqb_eq in E. subst c. exfalso. apply Hx. left. reflexivity.
  - destruct (IH y) as [H1 H2]; [intros H; apply Hx; right; exact H|].
    rewrite H1, H2. split; reflexivity.
Qed.

Lemma split_join : forall ps, ps <> [] -> Forall no_newline ps ->
  Py.split_lines (Py.join Py.nl ps) = ps.
Proof.
  induction ps as [|x ps IH]; intros Hne Hf; [congruence|].
  inversion Hf as [|x' ps' Hx Hps]; subst.
  destruct ps as [|y ps].
  - apply (split_no_newline x EmptyString Hx).
  - change (Py.join Py.nl (x :: y :: ps)) with (x ++ Py.nl ++ Py.join Py.nl (y :: ps))%string.
    unfold Py.split_lines. change (Py.nl ++ Py.join Py.nl (y :: ps))%string
      with (String Py.nl_char (Py.join Py.nl (y :: ps))).
    rewrite (proj1 (split_no_newline x _ Hx)). f_equal. apply IH; [discriminate|exact Hps].
Qed.
End ExtractorFacts.

(** The PDF text is the non-empty page texts, each followed by "\n"; an
    exception on any page discards the text of all pages. *)
Theorem pdf_text_of_pages : forall pages,
  extract_text_from_pdf (Some pages)
  = if existsb raises pages then EmptyString
    else lines_text (page_texts pages).
Proof.
  intros pages. unfold extract_text_from_pdf. rewrite ExtractorFacts.pages_text_spec.
  destruct (existsb raises pages); reflexivity.
Qed.

(** When no paragraph contains a newline and some paragraph is non-empty,
    the lines of the DOCX text are the non-empty paragraphs. *)
Theorem docx_text_lines : forall paragraphs,
  Forall no_newline paragraphs ->
  filter (fun p => negb (String.eqb p EmptyString)) paragraphs <> [] ->
  Py.split_lines (extract_text_from_docx (Some paragraphs))
  = filter (fun p => negb (String.eqb p EmptyString)) paragraphs.
Proof.
  intros ps Hf Hne. unfold extract_text_from_docx.
  apply ExtractorFacts.split_join; [exact Hne|].
  apply Forall_forall. intros x Hx. apply filter_In in Hx as [Hx _].
  rewrite Forall_forall in Hf. apply Hf, Hx.
Qed.

Lemma docx_text_lines_witness :
  Py.split_lines (extract_text_from_docx (Some ["Jane Smith"; ""; "Engineer"]))
  = ["Jane Smith"; "Engineer"].
Proof.
  apply (docx_text_lines ["Jane Smith"; ""; "Engineer"]).
  - repeat constructor; unfold no_newline; simpl; intuition discriminate.
  - discriminate.
Defined.
